(** * Buzz-Word Bingo: the board model and the session logic

    A shallow embedding of [buzz_word_bingo_2.0.pyw]: the class [BingoBoard]
    (board generation, mark toggling, mark reset, win detection) and the part
    of [BingoUI] that drives the session (tile clicks, the celebration, the
    dismissal, new board, reset).

    Python values are modelled as follows.
    - [int] is [Z]; [str] is [string]; [bool] is [bool].
    - a Python [list] is a Rocq [list]; subscripting follows Python: an index
      [i] with [0 <= i < len] addresses position [i], an index with
      [-len <= i < 0] addresses position [i + len], any other index raises
      [IndexError].
    - an exception is a value of [exn]; a computation that may raise returns
      an [outcome]; a method that mutates [self] is a function from the state
      before to the state after together with its [outcome], so the state
      left behind by a raising call is part of the model.
    - a line descriptor is the tuple [(type, index)] with [type] one of the
      strings ["row"], ["col"], ["diag"]. *)

From Stdlib Require Import ZArith Lia.
From stdpp Require Import base tactics option list strings.

Local Open Scope Z_scope.

(** ** Exceptions and outcomes *)

Inductive exn := IndexError | ValueError.

Inductive outcome (A : Type) :=
  | Returns (a : A)
  | Raises (e : exn).
Arguments Returns {A} a.
Arguments Raises {A} e.

#[global] Instance outcome_ret : MRet outcome := fun A a => Returns a.
#[global] Instance outcome_bind : MBind outcome := fun A B f c =>
  match c with
  | Returns a => f a
  | Raises e => Raises e
  end.

(** A method body over a mutable object of type [S]. *)
Definition M (S A : Type) : Type := S -> S * outcome A.

#[global] Instance M_ret {S} : MRet (M S) := fun A a s => (s, Returns a).
#[global] Instance M_bind {S} : MBind (M S) := fun A B f c s =>
  match c s with
  | (s', Returns a) => f a s'
  | (s', Raises e) => (s', Raises e)
  end.

Definition lift {S A} (c : outcome A) : M S A := fun s => (s, c).
Definition gets {S A} (f : S -> A) : M S A := fun s => (s, Returns (f s)).
Definition modify {S} (f : S -> S) : M S unit := fun s => (f s, Returns tt).

(** ** Python sequences *)

(** [range(n)] *)
Definition range (n : Z) : list Z := Z.of_nat <$> seq 0 (Z.to_nat n).

(** Position addressed by the subscript [i] in a sequence of length [n]. *)
Definition norm_index (n : nat) (i : Z) : outcome nat :=
  if decide (0 <= i < Z.of_nat n) then Returns (Z.to_nat i)
  else if decide (- Z.of_nat n <= i < 0) then Returns (Z.to_nat (i + Z.of_nat n))
  else Raises IndexError.

(** [l[i]] *)
Definition getitem {A} (l : list A) (i : Z) : outcome A :=
  k ← norm_index (length l) i;
  match l !! k with
  | Some x => Returns x
  | None => Raises IndexError
  end.

(** [l[i] = v] *)
Definition setitem {A} (l : list A) (i : Z) (v : A) : outcome (list A) :=
  k ← norm_index (length l) i;
  Returns (<[k:=v]> l).

(** [all(f(x) for x in xs)]: the generator is consumed up to the first false
    element, so the elements after it are not evaluated. *)
Fixpoint all_ {A} (f : A -> outcome bool) (xs : list A) : outcome bool :=
  match xs with
  | [] => Returns true
  | x :: xs' => b ← f x; if b : bool then all_ f xs' else Returns false
  end.

(** [for x in xs: acc = body(x, acc)], stopping at the first exception. *)
Fixpoint for_acc {A B} (xs : list A) (acc : B) (body : A -> B -> outcome B)
  : outcome B :=
  match xs with
  | [] => Returns acc
  | x :: xs' => acc' ← body x acc; for_acc xs' acc' body
  end.

(** The same loop inside a method body. *)
Fixpoint for_accM {S A B} (xs : list A) (acc : B) (body : A -> B -> M S B)
  : M S B :=
  match xs with
  | [] => mret acc
  | x :: xs' => acc' ← body x acc; for_accM xs' acc' body
  end.

(** [sep.join(l)] *)
Fixpoint join (sep : string) (l : list string) : string :=
  match l with
  | [] => ""
  | x :: l' =>
      match l' with
      | [] => x
      | _ => x +:+ sep +:+ join sep l'
      end
  end.

(** The characters ['\t'] and ['\n']. *)
Definition tab : Ascii.ascii := Ascii.ascii_of_nat 9.
Definition newline : Ascii.ascii := Ascii.ascii_of_nat 10.

(** ** random.sample

    [random.sample(population, k)] of the Python standard library raises
    [ValueError] when [k] exceeds the length of the population and otherwise
    returns a list of [k] entries taken at [k] different positions of the
    population.  The random source is the sequence [rnd] of raw draws: the
    [i]-th selection takes the entry at position [rnd i mod m] among the [m]
    entries not taken so far. *)
Fixpoint sample_loop {A} (rnd : nat -> nat) (i : nat) (pool : list A) (k : nat)
  : list A :=
  match k with
  | O => []
  | S k' =>
      let j := (rnd i mod length pool)%nat in
      match pool !! j with
      | Some x => x :: sample_loop rnd (S i) (delete j pool) k'
      | None => []
      end
  end.

Definition random_sample {A} (rnd : nat -> nat) (population : list A) (k : nat)
  : outcome (list A) :=
  if decide (k <= length population)%nat
  then Returns (sample_loop rnd 0 population k)
  else Raises ValueError.

(** ** class BingoBoard *)

Module BingoBoard.

(** The attributes [size] and [free_space_pos] are assigned once in
    [__init__] and never again: they are constants of the class. *)
Definition size : Z := 5.
Definition free_space_pos : Z * Z := (2, 2).

Record t := mk {
  buzzwords : list string;
  board : list (list string);
  marked : list (list bool)
}.

Definition set_board (b : list (list string)) (self : t) : t :=
  mk (buzzwords self) b (marked self).
Definition set_marked (m : list (list bool)) (self : t) : t :=
  mk (buzzwords self) (board self) m.

(** [[[False] * size for _ in range(size)]]: every row is a list of its own. *)
Definition blank_marks : list (list bool) :=
  (fun _ => replicate (Z.to_nat size) false) <$> range size.

(** [self.marked[free_space_pos[0]][free_space_pos[1]] = True] *)
Definition mark_free_space : M t unit :=
  m ← gets marked;
  r ← lift (getitem m (fst free_space_pos));
  r' ← lift (setitem r (snd free_space_pos) true);
  m' ← lift (setitem m (fst free_space_pos) r');
  modify (set_marked m').

Definition generate_board (rnd : nat -> nat) : M t unit :=
  pool ← gets buzzwords;
  selected ← lift (random_sample rnd pool 24);
  modify (set_board []);;
  for_accM (range size) 0 (fun row idx =>
    '(board_row, idx') ← lift (for_acc (range size) ([], idx) (fun col '(board_row, idx) =>
        if decide ((row, col) = free_space_pos)
        then Returns (board_row ++ ["FREE SPACE"%string], idx)
        else s ← getitem selected idx; Returns (board_row ++ [s], idx + 1)));
    modify (fun self => set_board (board self ++ [board_row]) self);;
    mret idx');;
  modify (set_marked blank_marks);;
  mark_free_space.

(** [BingoBoard(buzzwords)]: the constructor. *)
Definition init (rnd : nat -> nat) (buzzwords : list string) : t * outcome unit :=
  generate_board rnd (mk buzzwords [] []).

Definition toggle_mark (row col : Z) : M t unit :=
  if decide ((row, col) ≠ free_space_pos) then
    m ← gets marked;
    r ← lift (getitem m row);
    b ← lift (getitem r col);
    r' ← lift (setitem r col (negb b));
    m' ← lift (setitem m row r');
    modify (set_marked m')
  else mret tt.

Definition reset_marks : M t unit :=
  modify (set_marked blank_marks);;
  mark_free_space.

(** [self.marked[row][col]] *)
Definition marked_at (self : t) (row col : Z) : outcome bool :=
  r ← getitem (marked self) row; getitem r col.

Definition line : Type := string * Z.

Definition check_bingo (self : t) : outcome (list line) :=
  let winning_lines : list line := [] in
  winning_lines ← for_acc (range size) winning_lines (fun row winning_lines =>
    b ← all_ (fun col => marked_at self row col) (range size);
    Returns (if b : bool then winning_lines ++ [("row"%string, row)] else winning_lines));
  winning_lines ← for_acc (range size) winning_lines (fun col winning_lines =>
    b ← all_ (fun row => marked_at self row col) (range size);
    Returns (if b : bool then winning_lines ++ [("col"%string, col)] else winning_lines));
  b ← all_ (fun i => marked_at self i i) (range size);
  let winning_lines := if b : bool then winning_lines ++ [("diag"%string, 0)] else winning_lines in
  b ← all_ (fun i => marked_at self i (size - 1 - i)) (range size);
  let winning_lines := if b : bool then winning_lines ++ [("diag"%string, 1)] else winning_lines in
  Returns winning_lines.

(** The loop appends one line per row of [self.board]. *)
Definition get_board_text (self : t) : string :=
  let lines := foldl (fun lines row => lines ++ [join (String tab "") row]) []
                 (board self) in
  join (String newline "") lines.

End BingoBoard.

(** ** class BingoTile

    The widget of one tile: its text, its three flags, and the two canvas
    items that [update_appearance] configures, the fill colour of the
    rectangle and the state of the check mark. *)

Module BingoTile.

Definition normal_color : string := "#FFFFFF".
Definition marked_color : string := "#A8E6CF".
Definition winning_color : string := "#FFD93D".
Definition free_space_color : string := "#DDA0DD".

Record t := mk {
  text_content : string;
  is_marked : bool;
  is_winning : bool;
  is_free_space : bool;
  rect_fill : string;
  check_state : string
}.

Definition update_appearance (self : t) : t :=
  let '(color, state) :=
    if is_winning self then (winning_color, "normal"%string)
    else if is_free_space self then (free_space_color, "normal"%string)
    else if is_marked self then (marked_color, "normal"%string)
    else (normal_color, "hidden"%string) in
  mk (text_content self) (is_marked self) (is_winning self) (is_free_space self)
     color state.

Definition set_marked (marked : bool) (self : t) : t :=
  update_appearance
    (mk (text_content self) marked (is_winning self) (is_free_space self)
        (rect_fill self) (check_state self)).

Definition set_winning (winning : bool) (self : t) : t :=
  update_appearance
    (mk (text_content self) (is_marked self) winning (is_free_space self)
        (rect_fill self) (check_state self)).

(** [BingoTile(parent, text, ...)]: the rectangle is drawn in the normal
    colour, the check mark is hidden, and the free space is marked at once. *)
Definition init (text : string) : t :=
  let self := mk text false false (String.eqb text "FREE SPACE")
                normal_color "hidden" in
  if is_free_space self then set_marked true self else self.

(** The two calls [update_display] makes on a tile. *)
Inductive call :=
  | SetMarked (marked : bool)
  | SetWinning (winning : bool).

Definition apply_call (self : t) (c : call) : t :=
  match c with
  | SetMarked marked => set_marked marked self
  | SetWinning winning => set_winning winning self
  end.

End BingoTile.

(** ** class BingoUI

    The session attributes of the window and the handlers that change them.
    The widgets are kept as far as the handlers read or write them: the grid
    of tiles with the text and the two flags of each tile, and the calls made
    on the banner, the confetti canvas, the continue button and the sound, in
    the order in which they are made ([tk_log]). *)

Module BingoUI.

(** A [BingoTile]: the attributes the session logic sets. *)
Record tile := mk_tile {
  text_content : string;
  is_marked : bool;
  is_winning : bool
}.

Definition tile_set_marked (v : bool) (w : tile) : tile :=
  mk_tile (text_content w) v (is_winning w).
Definition tile_set_winning (v : bool) (w : tile) : tile :=
  mk_tile (text_content w) (is_marked w) v.

Inductive tk_call :=
  | LaunchConfetti
  | BannerPlace
  | BannerLift
  | BannerPlaceForget
  | ConfettiPlaceForget
  | UpdateContinueButton
  | PlayCelebrationSound
  | TilesDestroy.

#[global] Instance tk_call_eq_dec : EqDecision tk_call.
Proof. solve_decision. Defined.

Record t := mk {
  board : BingoBoard.t;
  tile_widgets : list (list tile);
  bingo_active : bool;
  winning_lines : list BingoBoard.line;
  continue_button_enabled : bool;
  tk_log : list tk_call
}.

Definition set_board (v : BingoBoard.t) (self : t) : t :=
  mk v (tile_widgets self) (bingo_active self) (winning_lines self)
     (continue_button_enabled self) (tk_log self).
Definition set_tile_widgets (v : list (list tile)) (self : t) : t :=
  mk (board self) v (bingo_active self) (winning_lines self)
     (continue_button_enabled self) (tk_log self).
Definition set_bingo_active (v : bool) (self : t) : t :=
  mk (board self) (tile_widgets self) v (winning_lines self)
     (continue_button_enabled self) (tk_log self).
Definition set_winning_lines (v : list BingoBoard.line) (self : t) : t :=
  mk (board self) (tile_widgets self) (bingo_active self) v
     (continue_button_enabled self) (tk_log self).
Definition set_continue_button_enabled (v : bool) (self : t) : t :=
  mk (board self) (tile_widgets self) (bingo_active self) (winning_lines self)
     v (tk_log self).

(** A call on a widget, recorded at the end of the log. *)
Definition tk (c : tk_call) : M t unit :=
  modify (fun self =>
    mk (board self) (tile_widgets self) (bingo_active self) (winning_lines self)
       (continue_button_enabled self) (tk_log self ++ [c])).

(** A method call on [self.board]. *)
Definition on_board {A} (c : M BingoBoard.t A) : M t A := fun self =>
  let '(b, r) := c (board self) in (set_board b self, r).

Definition update_continue_button : M t unit := tk UpdateContinueButton.
Definition launch_confetti : M t unit := tk LaunchConfetti.
Definition play_celebration_sound : M t unit := tk PlayCelebrationSound.

(** The loop of [is_winning_tile] over [self.winning_lines]. *)
Fixpoint tile_on_lines (lines : list BingoBoard.line) (row col : Z) : bool :=
  match lines with
  | [] => false
  | (line_type, index) :: lines' =>
      if String.eqb line_type "row" && (row =? index) then true
      else if String.eqb line_type "col" && (col =? index) then true
      else if String.eqb line_type "diag" && (index =? 0) && (row =? col) then true
      else if String.eqb line_type "diag" && (index =? 1) && (row =? 4 - col) then true
      else tile_on_lines lines' row col
  end.

Definition is_winning_tile (self : t) (row col : Z) : bool :=
  match winning_lines self with
  | [] => false
  | lines => tile_on_lines lines row col
  end.

Definition update_display : M t unit :=
  for_accM (range 5) tt (fun row _ =>
    for_accM (range 5) tt (fun col _ =>
      tw ← gets tile_widgets;
      tile_row ← lift (getitem tw row);
      w ← lift (getitem tile_row col);
      b ← gets board;
      marked ← lift (BingoBoard.marked_at b row col);
      winning ← gets (fun self => is_winning_tile self row col);
      active ← gets bingo_active;
      let w' := tile_set_winning (winning && active) (tile_set_marked marked w) in
      tile_row' ← lift (setitem tile_row col w');
      tw' ← lift (setitem tw row tile_row');
      modify (set_tile_widgets tw'))).

(** The tile grid built by [setup_ui] and by [new_board]. *)
Definition create_tiles : M t unit :=
  modify (set_tile_widgets []);;
  for_accM (range 5) tt (fun row _ =>
    tile_row ← for_accM (range 5) [] (fun col tile_row =>
      b ← gets board;
      text_row ← lift (getitem (BingoBoard.board b) row);
      text ← lift (getitem text_row col);
      mret (tile_row ++ [mk_tile text false false]));
    modify (fun self => set_tile_widgets (tile_widgets self ++ [tile_row]) self)).

Definition setup_ui : M t unit :=
  create_tiles;;
  modify (set_continue_button_enabled false);;
  update_continue_button.

(** [BingoUI(root, buzzwords)]: no window exists when the constructor raises. *)
Definition init (rnd : nat -> nat) (buzzwords : list string) : outcome t :=
  match BingoBoard.init rnd buzzwords with
  | (b, Returns _) =>
      match (setup_ui;; update_display) (mk b [] false [] false []) with
      | (self, Returns _) => Returns self
      | (_, Raises e) => Raises e
      end
  | (_, Raises e) => Raises e
  end.

Definition dismiss_bingo : M t unit :=
  enabled ← gets continue_button_enabled;
  if negb enabled then mret tt
  else
    tk BannerPlaceForget;;
    tk ConfettiPlaceForget;;
    modify (set_continue_button_enabled false);;
    update_continue_button.

(** Truth value of a list: it is true when the list is not empty. *)
Definition truthy {A} (l : list A) : bool :=
  match l with [] => false | _ => true end.

Definition check_and_show_bingo : M t unit :=
  lines ← on_board (fun b => (b, BingoBoard.check_bingo b));
  modify (set_winning_lines lines);;
  lines ← gets winning_lines;
  active ← gets bingo_active;
  if truthy lines && negb active then
    modify (set_bingo_active true);;
    launch_confetti;;
    tk BannerPlace;;
    tk BannerLift;;
    modify (set_continue_button_enabled true);;
    update_continue_button;;
    play_celebration_sound;;
    update_display
  else if negb (truthy lines) && active then
    dismiss_bingo
  else mret tt.

Definition on_tile_click (row col : Z) : M t unit :=
  on_board (BingoBoard.toggle_mark row col);;
  update_display;;
  check_and_show_bingo.

Definition new_board (rnd : nat -> nat) : M t unit :=
  tk TilesDestroy;;
  on_board (BingoBoard.generate_board rnd);;
  modify (set_bingo_active false);;
  modify (set_winning_lines []);;
  tk BannerPlaceForget;;
  tk ConfettiPlaceForget;;
  modify (set_continue_button_enabled false);;
  update_continue_button;;
  create_tiles;;
  update_display.

Definition reset_marks : M t unit :=
  on_board BingoBoard.reset_marks;;
  modify (set_bingo_active false);;
  modify (set_winning_lines []);;
  tk BannerPlaceForget;;
  tk ConfettiPlaceForget;;
  modify (set_continue_button_enabled false);;
  update_continue_button;;
  update_display.

(** The session phase of the specification, read off the two flags: no win
    seen yet; a win seen and the banner up (the continue button is enabled
    exactly while the banner is up); a win seen and the banner dismissed. *)
Inductive phase := Idle | Celebrating | Acknowledged.

Definition session_phase (self : t) : phase :=
  if bingo_active self then
    if continue_button_enabled self then Celebrating else Acknowledged
  else Idle.

(** Number of celebrations launched so far. *)
Definition celebrations (self : t) : nat :=
  length (filter (fun c => c = LaunchConfetti) (tk_log self)).

(** What the player does between two board changes: a click on the tile at
    [(row, col)], or a click on the continue button. *)
Inductive click :=
  | TileClick (row col : Z)
  | ContinueClick.

Definition handle (c : click) : M t unit :=
  match c with
  | TileClick row col => on_tile_click row col
  | ContinueClick => dismiss_bingo
  end.

(** The main loop runs the handler of each click in turn; an exception raised
    by a handler is reported and the loop goes on with the state the handler
    left. *)
Fixpoint run (cs : list click) (self : t) : t :=
  match cs with
  | [] => self
  | c :: cs' => run cs' (fst (handle c self))
  end.

End BingoUI.

(** ** main: the word pool of the program *)

Definition main_buzzwords : list string := [
  "Circle Back";
  "Low Hanging Fruit";
  "Take This Offline";
  "Deep Dive";
  "Synergy";
  "Bandwidth";
  "Action Items";
  "Touch Base";
  "Moving Forward";
  "Thought Leadership";
  "Quick Win";
  "Single Pane of Glass";
  "Customer Centric";
  "Best Practices";
  "Game Changer";
  "At Scale";
  "Leverage";
  "Alignment";
  "Deliverables";
  "Boil the Ocean";
  "Run It Up the Flagpole";
  "North Star";
  "Value Add";
  "Paradigm Shift";
  "Stakeholder Buy In";
  "Roadmap";
  "Pain Points";
  "Level Set";
  "Granular";
  "Drill Down";
  "Pivot";
  "Blockers";
  "Operationalize";
  "Right Size";
  "Optimize";
  "End of Day";
  "Low Effort High Impact";
  "Move the Needle";
  "Outside the Box";
  "Parking Lot";
  "Table This";
  "Socialize This";
  "Takeaway";
  "Key Learnings";
  "Win Win";
  "Close the Loop";
  "Circle the Wagons";
  "High Level";
  "Next Steps";
  "KPIs";
  "Metrics Driven";
  "Deliver on Expectations";
  "Shift Left";
  "Customer Journey";
  "Strategic Initiative";
  "Scalable Solution";
  "Thought Partner";
  "Core Competency";
  "Value Proposition";
  "Growth Mindset";
  "Digital Transformation";
  "Operational Excellence";
  "Agile Framework";
  "Holistic View";
  "Enterprise Ready";
  "Cross Functional";
  "Runway";
  "Buy vs Build";
  "Right Hand Left Hand";
  "Trust but Verify";
  "Swivel Chair";
  "Table Stakes";
  "Hard Stop";
  "Soft Launch";
  "Big Picture";
  "Zoom Out";
  "Quick Sync";
  "Weekly Cadence";
  "Executive Summary";
  "Stakeholder Alignment";
  "Resource Constraints";
  "Capacity Planning";
  "Change Management";
  "Continuous Improvement";
  "Customer First";
  "Solution Oriented";
  "Outcome Based";
  "Data Driven";
  "Best in Class";
  "Force Multiplier";
  "Value Stream";
  "Strategic Fit";
  "Business Case";
  "Operating Model";
  "People Process Technology";
  "Plain Vanilla";
  "Full Stack";
  "Zero Trust";
  "Single Source of Truth";
  "Feedback Loop";
  "Run the Numbers";
  "Raise the Bar";
  "Move Fast";
  "Fail Fast";
  "Lessons Learned";
  "Net New";
  "Back to Basics";
  "End to End";
  "Future Proof";
  "Right the Ship";
  "First Principles";
  "Tiger Team";
  "Skin in the Game";
  "Double Click";
  "Peel the Onion";
  "Move the Goalposts";
  "Rubber Meets the Road";
  "Drink Our Own Champagne";
  "Eating Our Own Dog Food";
  "Golden Handcuffs";
  "Ivory Tower";
  "Burning Platform";
  "Lift and Shift";
  "Rip and Replace";
  "Greenfield";
  "Brownfield";
  "Tribal Knowledge";
  "Dotted Line";
  "Solid Line";
  "Air Cover";
  "Top Down";
  "Bottom Up";
  "Land and Expand";
  "Land the Plane";
  "Cutting Edge";
  "Bleeding Edge";
  "Leading Edge";
  "Trailing Edge";
  "Front Burner";
  "Back Burner";
  "On My Radar";
  "Off My Radar";
  "Punch Above Our Weight";
  "Punch List";
  "Shopping List";
  "Wish List";
  "Must Have";
  "Nice to Have";
  "Non Starter";
  "Deal Breaker";
  "Show Stopper";
  "Smoke Test";
  "Sanity Check";
  "Gut Check";
  "Temperature Check";
  "Litmus Test";
  "Acid Test";
  "Proof of Concept";
  "Minimum Viable Product";
  "Go to Market";
  "Time to Market";
  "First Mover Advantage";
  "Fast Follower";
  "Blue Ocean";
  "Red Ocean";
  "White Space";
  "Greenspace";
  "Market Share";
  "Mind Share";
  "Wallet Share";
  "Top of Mind";
  "Top Tier";
  "Second Tier";
  "Best of Breed";
  "Jack of All Trades";
  "One Stop Shop";
  "Soup to Nuts";
  "Cradle to Grave";
  "Farm to Table";
  "Bench Strength";
  "Bench Depth";
  "Talent Pipeline";
  "War for Talent";
  "Culture Fit";
  "Culture Add";
  "Employee Experience";
  "Employee Journey";
  "Servant Leadership";
  "Command and Control";
  "Matrix Organization";
  "Flat Organization";
  "Span of Control";
  "Circle of Influence";
  "Sphere of Influence";
  "Playing Politics";
  "Managing Up";
  "Managing Across";
  "Manage Expectations";
  "Set Expectations";
  "Under Promise Over Deliver";
  "Exceed Expectations";
  "Knock It Out of the Park";
  "Hit a Home Run";
  "Slam Dunk";
  "Layup";
  "Hail Mary";
  "Fourth Quarter";
  "Two Minute Drill";
  "Full Court Press";
  "Championship Mindset";
  "Participation Trophy";
  "Raise Your Hand";
  "Roll Up Your Sleeves"
]%string.

(** * Properties *)

(** ** Grids *)

(** A grid of 5 rows of 5 cells. *)
Definition grid5 {A} (g : list (list A)) : Prop :=
  length g = 5%nat /\ Forall (fun r => length r = 5%nat) g.

(** A validly constructed board: both grids are 5x5. *)
Definition valid_board (self : BingoBoard.t) : Prop :=
  grid5 (BingoBoard.board self) /\ grid5 (BingoBoard.marked self).

(** The flag stored at row [r], column [c] (both counted from 0). *)
Definition cell (m : list (list bool)) (r c : Z) : bool :=
  default false (m !! Z.to_nat r ≫= fun row => row !! Z.to_nat c).

(** The marks of a fresh board: the center only. *)
Definition fresh_marks : list (list bool) :=
  [[false; false; false; false; false];
   [false; false; false; false; false];
   [false; false; true; false; false];
   [false; false; false; false; false];
   [false; false; false; false; false]].

(** ** Lines *)

(** The 12 line descriptors, in the order in which [check_bingo] visits them. *)
Definition all_lines : list BingoBoard.line :=
  [("row", 0); ("row", 1); ("row", 2); ("row", 3); ("row", 4);
   ("col", 0); ("col", 1); ("col", 2); ("col", 3); ("col", 4);
   ("diag", 0); ("diag", 1)]%string.

(** The cells of a line: row [i], column [i], the diagonal from the top left
    corner ([("diag", 0)]) and the one from the top right ([("diag", 1)]). *)
Definition line_cells (l : BingoBoard.line) : list (Z * Z) :=
  let '(line_type, i) := l in
  if String.eqb line_type "row" then (fun c => (i, c)) <$> range 5
  else if String.eqb line_type "col" then (fun r => (r, i)) <$> range 5
  else if String.eqb line_type "diag" && (i =? 0) then (fun k => (k, k)) <$> range 5
  else if String.eqb line_type "diag" && (i =? 1) then (fun k => (k, 4 - k)) <$> range 5
  else [].

(** All the cells of a line are marked. *)
Definition complete (m : list (list bool)) (l : BingoBoard.line) : bool :=
  forallb (fun rc => cell m rc.1 rc.2) (line_cells l).

(** ** Generated boards *)

(** The board grid built from the 24 selected phrases. *)
Definition layout (sel : list string) : list (list string) :=
  let s k := default ""%string (sel !! k) in
  [[s 0; s 1; s 2; s 3; s 4];
   [s 5; s 6; s 7; s 8; s 9];
   [s 10; s 11; "FREE SPACE"%string; s 12; s 13];
   [s 14; s 15; s 16; s 17; s 18];
   [s 19; s 20; s 21; s 22; s 23]]%nat.

(** ** Sessions *)

(** Everything but the tile grid is as in [s0], and the tile grid is 5x5. *)
Definition redisplayed (s0 s : BingoUI.t) : Prop :=
  grid5 (BingoUI.tile_widgets s)
  /\ s = BingoUI.set_tile_widgets (BingoUI.tile_widgets s) s0.

(** What holds of the session between two clicks. *)
Definition session_inv (s : BingoUI.t) : Prop :=
  valid_board (BingoUI.board s)
  /\ grid5 (BingoUI.tile_widgets s)
  /\ BingoBoard.check_bingo (BingoUI.board s) = Returns (BingoUI.winning_lines s)
  /\ (BingoUI.bingo_active s = false -> BingoUI.winning_lines s = []).

(** The session right after the constructor, [new_board] or [reset_marks]. *)
Definition fresh_session (s : BingoUI.t) : Prop :=
  valid_board (BingoUI.board s)
  /\ BingoBoard.marked (BingoUI.board s) = fresh_marks
  /\ grid5 (BingoUI.tile_widgets s)
  /\ BingoUI.bingo_active s = false
  /\ BingoUI.winning_lines s = []
  /\ BingoUI.continue_button_enabled s = false.

(** The states before and after each click of a run. *)
Fixpoint steps (cs : list BingoUI.click) (s : BingoUI.t)
  : list (BingoUI.t * BingoUI.t) :=
  match cs with
  | [] => []
  | c :: cs' =>
      let s' := fst (BingoUI.handle c s) in (s, s') :: steps cs' s'
  end.

(** The click launched a celebration. *)
Definition fires (p : BingoUI.t * BingoUI.t) : bool :=
  negb (BingoUI.celebrations p.2 =? BingoUI.celebrations p.1)%nat.

(** [check_bingo] finds a winning line on the board of the session. *)
Definition board_wins (s : BingoUI.t) : bool :=
  match BingoBoard.check_bingo (BingoUI.board s) with
  | Returns lines => BingoUI.truthy lines
  | Raises _ => false
  end.

(** Keeps the first [true] of a list of flags and clears the later ones. *)
Fixpoint first_only (bs : list bool) : list bool :=
  match bs with
  | [] => []
  | true :: bs' => true :: ((fun _ => false) <$> bs')
  | false :: bs' => false :: first_only bs'
  end.

(** What one click does to a session that satisfies the invariant. *)
Definition click_effect (s s' : BingoUI.t) : Prop :=
  session_inv s'
  /\ (BingoUI.bingo_active s = true ->
      BingoUI.bingo_active s' = true
      /\ BingoUI.celebrations s' = BingoUI.celebrations s
      /\ (BingoUI.continue_button_enabled s' = true ->
          BingoUI.continue_button_enabled s = true))
  /\ (BingoUI.bingo_active s = false ->
      if BingoUI.truthy (BingoUI.winning_lines s')
      then BingoUI.bingo_active s' = true
           /\ BingoUI.continue_button_enabled s' = true
           /\ BingoUI.celebrations s' = S (BingoUI.celebrations s)
      else BingoUI.bingo_active s' = false
           /\ BingoUI.celebrations s' = BingoUI.celebrations s).

(** What the specification asks of the click that leads from the first
    state of [p] to the second. *)
Definition step_ok (p : BingoUI.t * BingoUI.t) : Prop :=
  BingoBoard.check_bingo (BingoUI.board p.2) = Returns (BingoUI.winning_lines p.2)
  /\ (BingoUI.session_phase p.1 <> BingoUI.Idle ->
      BingoUI.celebrations p.2 = BingoUI.celebrations p.1
      /\ BingoUI.session_phase p.2 <> BingoUI.Idle)
  /\ (BingoUI.session_phase p.1 = BingoUI.Acknowledged ->
      BingoUI.session_phase p.2 = BingoUI.Acknowledged)
  /\ (fires p = true ->
      BingoUI.session_phase p.1 = BingoUI.Idle
      /\ BingoUI.session_phase p.2 = BingoUI.Celebrating).

(** ** Concrete objects *)

(** A sequence of draws. *)
Definition sample_rnd : nat -> nat := fun i => (7 * i + 3)%nat.

(** The board the program builds from its word pool with the draws
    [sample_rnd]. *)
Definition sample_board : BingoBoard.t :=
  fst (BingoBoard.init sample_rnd main_buzzwords).

(** The session the program starts with for the same draws. *)
Definition sample_session : BingoUI.t :=
  match BingoUI.init sample_rnd main_buzzwords with
  | Returns s => s
  | Raises _ => BingoUI.mk sample_board [] false [] false []
  end.

(** Marking the two diagonals, one tile after the other, with a click on the
    continue button once the first diagonal is complete. *)
Definition diagonal_clicks : list BingoUI.click :=
  [BingoUI.TileClick 0 0; BingoUI.TileClick 1 1; BingoUI.TileClick 3 3;
   BingoUI.TileClick 4 4; BingoUI.ContinueClick; BingoUI.TileClick 0 4;
   BingoUI.TileClick 1 3; BingoUI.TileClick 3 1; BingoUI.TileClick 4 0].

(** ** Board text *)

(** [s.split(sep)] for a separator of one character. *)
Fixpoint split (sep : Ascii.ascii) (s : string) : list string :=
  match s with
  | EmptyString => [""%string]
  | String c s' =>
      if Ascii.eqb c sep then ""%string :: split sep s'
      else match split sep s' with
           | [] => [String c ""]
           | w :: ws => String c w :: ws
           end
  end.

(** The character [sep] occurs in [s]. *)
Fixpoint contains (sep : Ascii.ascii) (s : string) : bool :=
  match s with
  | EmptyString => false
  | String c s' => Ascii.eqb c sep || contains sep s'
  end.

(** ** Tiles *)

(** What [update_display] leaves in the tile at row [r], column [c]. *)
Definition display_tile (s : BingoUI.t) (r c : nat) (w : BingoUI.tile) : BingoUI.tile :=
  BingoUI.tile_set_winning
    (BingoUI.is_winning_tile s (Z.of_nat r) (Z.of_nat c) && BingoUI.bingo_active s)
    (BingoUI.tile_set_marked
       (cell (BingoBoard.marked (BingoUI.board s)) (Z.of_nat r) (Z.of_nat c)) w).

Definition displayed (s : BingoUI.t) : list (list BingoUI.tile) :=
  imap (fun r row => imap (fun c w => display_tile s r c w) row) (BingoUI.tile_widgets s).

Definition redisplay (s : BingoUI.t) : BingoUI.t :=
  BingoUI.set_tile_widgets (displayed s) s.

(** The tile at row [r], column [c] (both counted from 0). *)
Definition tile_at (s : BingoUI.t) (r c : Z) : option BingoUI.tile :=
  BingoUI.tile_widgets s !! Z.to_nat r ≫= fun row => row !! Z.to_nat c.

(** The session after the assignments and widget calls of the celebration
    branch of [check_and_show_bingo], before its [update_display]. *)
Definition celebrating (b : BingoBoard.t) (lines : list BingoBoard.line) (s : BingoUI.t)
  : BingoUI.t :=
  BingoUI.mk b (BingoUI.tile_widgets s) true lines true
    (((((BingoUI.tk_log s ++ [BingoUI.LaunchConfetti]) ++ [BingoUI.BannerPlace])
       ++ [BingoUI.BannerLift]) ++ [BingoUI.UpdateContinueButton])
     ++ [BingoUI.PlayCelebrationSound]).

(** The session left by [check_and_show_bingo] when [check_bingo] returns
    [lines]. *)
Definition checked (s : BingoUI.t) (lines : list BingoBoard.line) : BingoUI.t :=
  if BingoUI.truthy lines && negb (BingoUI.bingo_active s)
  then redisplay (celebrating (BingoUI.board s) lines s)
  else if negb (BingoUI.truthy lines) && BingoUI.bingo_active s
  then fst (BingoUI.dismiss_bingo (BingoUI.set_winning_lines lines s))
  else BingoUI.set_winning_lines lines s.

(** The number of marked cells. *)
Definition marked_count (m : list (list bool)) : nat :=
  sum_list ((fun b : bool => if b then 1%nat else 0%nat) <$> concat m).

(** The canvas items of a tile agree with its flags. *)
Definition tile_consistent (w : BingoTile.t) : Prop :=
  (BingoTile.check_state w = "hidden"%string
   <-> BingoTile.is_winning w = false /\ BingoTile.is_free_space w = false
       /\ BingoTile.is_marked w = false)
  /\ (BingoTile.check_state w = "hidden"%string \/ BingoTile.check_state w = "normal"%string)
  /\ (BingoTile.is_free_space w = true ->
      BingoTile.check_state w = "normal"%string
      /\ (BingoTile.rect_fill w = BingoTile.winning_color
          \/ BingoTile.rect_fill w = BingoTile.free_space_color))
  /\ (BingoTile.rect_fill w = BingoTile.winning_color <-> BingoTile.is_winning w = true).

(** The session after the first [n] clicks of [diagonal_clicks]. *)
Definition sample_after (n : nat) : BingoUI.t :=
  BingoUI.run (take n diagonal_clicks) sample_session.

(** ** Sequences of board operations *)

(** The calls the window makes on its board. *)
Inductive board_op :=
  | OpGenerate (rnd : nat -> nat)
  | OpToggle (row col : Z)
  | OpReset.

Definition apply_op (op : board_op) : M BingoBoard.t unit :=
  match op with
  | OpGenerate rnd => BingoBoard.generate_board rnd
  | OpToggle row col => BingoBoard.toggle_mark row col
  | OpReset => BingoBoard.reset_marks
  end.

(** The calls are made one after the other; a call that raises leaves the
    board in the state the next call finds. *)
Fixpoint run_ops (ops : list board_op) (self : BingoBoard.t) : BingoBoard.t :=
  match ops with
  | [] => self
  | op :: ops' => run_ops ops' (fst (apply_op op self))
  end.

(** The coordinates of a toggle are those of a tile: the tiles are built for
    [row] and [col] in [range(5)] and pass their own coordinates. *)
Definition tile_coordinates (op : board_op) : Prop :=
  match op with
  | OpToggle row col => 0 <= row < 5 /\ 0 <= col < 5
  | _ => True
  end.

(** ** Basic facts *)

Lemma bind_Returns {A B} (a : A) (f : A -> outcome B) :
  (Returns a ≫= f) = f a.
Proof. reflexivity. Qed.

Lemma range_5 : range 5 = [0; 1; 2; 3; 4].
Proof. reflexivity. Qed.

Lemma elem_of_range_5 (x : Z) : x ∈ range 5 <-> 0 <= x < 5.
Proof.
  rewrite range_5. rewrite !elem_of_cons, elem_of_nil. lia.
Qed.

Lemma norm_index_nonneg (n : nat) (i : Z) :
  0 <= i < Z.of_nat n -> norm_index n i = Returns (Z.to_nat i).
Proof. intros H. unfold norm_index. rewrite decide_True by done. done. Qed.

Lemma norm_index_outside (n : nat) (i : Z) :
  ~ (- Z.of_nat n <= i < Z.of_nat n) -> norm_index n i = Raises IndexError.
Proof.
  intros H. unfold norm_index. rewrite !decide_False by lia. done.
Qed.

Lemma norm_index_lt (n : nat) (i : Z) (k : nat) :
  norm_index n i = Returns k -> (k < n)%nat.
Proof.
  unfold norm_index. repeat case_decide; intros [= <-]; lia.
Qed.

Lemma getitem_nonneg {A} (l : list A) (i : Z) :
  0 <= i < Z.of_nat (length l) ->
  exists x, l !! Z.to_nat i = Some x /\ getitem l i = Returns x.
Proof.
  intros H. unfold getitem. rewrite norm_index_nonneg by done.
  destruct (lookup_lt_is_Some_2 l (Z.to_nat i)) as [x Hx]; [lia|].
  exists x. rewrite bind_Returns, Hx. done.
Qed.

Lemma getitem_outside {A} (l : list A) (i : Z) :
  ~ (- Z.of_nat (length l) <= i < Z.of_nat (length l)) ->
  getitem l i = Raises IndexError.
Proof. intros H. unfold getitem. rewrite norm_index_outside by done. done. Qed.

Lemma getitem_cases {A} (l : list A) (i : Z) :
  (exists k x, norm_index (length l) i = Returns k /\ l !! k = Some x
               /\ getitem l i = Returns x)
  \/ (~ (- Z.of_nat (length l) <= i < Z.of_nat (length l))
      /\ getitem l i = Raises IndexError).
Proof.
  destruct (decide (- Z.of_nat (length l) <= i < Z.of_nat (length l))) as [Hin|Hout].
  - left. destruct (norm_index (length l) i) as [k|e] eqn:Hk.
    + pose proof (norm_index_lt _ _ _ Hk) as Hlt.
      destruct (lookup_lt_is_Some_2 l k Hlt) as [x Hx].
      exists k, x. unfold getitem. rewrite Hk, bind_Returns, Hx. done.
    + unfold norm_index in Hk. repeat case_decide; try done; lia.
  - right. split; [done|]. by apply getitem_outside.
Qed.

Lemma grid5_row {A} (g : list (list A)) (k : nat) (r : list A) :
  grid5 g -> g !! k = Some r -> length r = 5%nat.
Proof.
  intros [_ Hrows] Hk. rewrite Forall_lookup in Hrows. eauto.
Qed.

Lemma grid5_insert {A} (g : list (list A)) (k : nat) (r : list A) :
  grid5 g -> length r = 5%nat -> grid5 (<[k:=r]> g).
Proof.
  intros [Hlen Hrows] Hr. split.
  - by rewrite length_insert.
  - by apply Forall_insert.
Qed.

Lemma marked_at_cell (self : BingoBoard.t) (r c : Z) :
  grid5 (BingoBoard.marked self) -> 0 <= r < 5 -> 0 <= c < 5 ->
  BingoBoard.marked_at self r c = Returns (cell (BingoBoard.marked self) r c).
Proof.
  intros Hg Hr Hc. unfold BingoBoard.marked_at, cell.
  destruct (getitem_nonneg (BingoBoard.marked self) r) as (row & Hrow & ->).
  { destruct Hg as [-> _]. lia. }
  rewrite bind_Returns, Hrow. simpl.
  destruct (getitem_nonneg row c) as (b & Hb & ->).
  { rewrite (grid5_row _ _ _ Hg Hrow). lia. }
  rewrite Hb. done.
Qed.

(** ** The loops of [check_bingo] *)

Lemma all_forallb {A} (f : A -> outcome bool) (g : A -> bool) (xs : list A) :
  (forall x, x ∈ xs -> f x = Returns (g x)) ->
  all_ f xs = Returns (forallb g xs).
Proof.
  induction xs as [|x xs IH]; intros Hf; simpl; [done|].
  rewrite (Hf x) by (apply elem_of_cons; left; reflexivity). rewrite bind_Returns.
  destruct (g x); simpl; [|done].
  apply IH. intros y Hy. apply Hf. apply elem_of_cons. by right.
Qed.

Lemma for_acc_filter {A B} (F : A -> outcome bool) (g : A -> bool) (G : A -> B)
    (xs : list A) (acc : list B) :
  (forall x, x ∈ xs -> F x = Returns (g x)) ->
  for_acc xs acc (fun x acc => b ← F x; Returns (if b : bool then acc ++ [G x] else acc))
  = Returns (acc ++ (G <$> filter (fun x => g x) xs)).
Proof.
  revert acc. induction xs as [|x xs IH]; intros acc Hf; simpl.
  - by rewrite app_nil_r.
  - rewrite (Hf x) by (apply elem_of_cons; left; reflexivity). rewrite !bind_Returns.
    rewrite IH by (intros y Hy; apply Hf; apply elem_of_cons; right; exact Hy).
    rewrite filter_cons. destruct (g x); simpl.
    + by rewrite <- app_assoc.
    + done.
Qed.

Lemma filter_fmap_comp {A B} (f : A -> B) (p : B -> bool) (l : list A) :
  filter (fun y => p y) (f <$> l) = f <$> filter (fun x => p (f x)) l.
Proof.
  induction l as [|x l IH]; [done|].
  rewrite fmap_cons, !filter_cons, IH. by destruct (p (f x)).
Qed.

(** On a 5x5 grid [check_bingo] returns, and what it returns is the list of
    the complete lines in the order of [all_lines]. *)
Lemma check_bingo_filter (self : BingoBoard.t) :
  grid5 (BingoBoard.marked self) ->
  BingoBoard.check_bingo self
  = Returns (filter (fun l => complete (BingoBoard.marked self) l) all_lines).
Proof.
  intros Hg. unfold BingoBoard.check_bingo.
  set (m := BingoBoard.marked self).
  rewrite (for_acc_filter _
    (fun row => forallb (fun col => cell m row col) (range 5)) (fun row => ("row"%string, row))).
  2:{ intros row Hrow. apply all_forallb. intros col Hcol.
      apply elem_of_range_5 in Hrow. apply elem_of_range_5 in Hcol.
      by apply marked_at_cell. }
  rewrite bind_Returns.
  rewrite (for_acc_filter _
    (fun col => forallb (fun row => cell m row col) (range 5)) (fun col => ("col"%string, col))).
  2:{ intros col Hcol. apply all_forallb. intros row Hrow.
      apply elem_of_range_5 in Hrow. apply elem_of_range_5 in Hcol.
      by apply marked_at_cell. }
  rewrite bind_Returns.
  rewrite (all_forallb (fun i => BingoBoard.marked_at self i i) (fun i => cell m i i)).
  2:{ intros i Hi. apply elem_of_range_5 in Hi. by apply marked_at_cell. }
  rewrite bind_Returns.
  rewrite (all_forallb _ (fun i => cell m i (BingoBoard.size - 1 - i))).
  2:{ intros i Hi. apply elem_of_range_5 in Hi.
      cbv beta. apply marked_at_cell; [done|done|unfold BingoBoard.size; lia]. }
  rewrite bind_Returns. f_equal.
  change all_lines with
    (((fun row => ("row"%string, row)) <$> range 5)
     ++ ((fun col => ("col"%string, col)) <$> range 5)
     ++ [("diag"%string, 0); ("diag"%string, 1)]).
  rewrite !filter_app, !filter_fmap_comp, app_nil_l.
  change (range BingoBoard.size) with (range 5).
  rewrite !filter_cons, filter_nil.
  change (complete m ("diag"%string, 0))
    with (forallb (fun i => cell m i i) (range 5)).
  change (complete m ("diag"%string, 1))
    with (forallb (fun i => cell m i (BingoBoard.size - 1 - i)) (range 5)).
  destruct (forallb (fun i => cell m i i) (range 5));
    destruct (forallb (fun i => cell m i (BingoBoard.size - 1 - i)) (range 5));
    simpl; rewrite <- ?app_assoc, ?app_nil_r; reflexivity.
Qed.

(** ** toggle_mark *)

Ltac unfold_M :=
  cbv [mbind M_bind mret M_ret gets lift modify BingoUI.on_board BingoUI.tk].

Lemma setitem_Returns {A} (l : list A) (i : Z) (k : nat) (v : A) :
  norm_index (length l) i = Returns k -> setitem l i v = Returns (<[k:=v]> l).
Proof. intros Hk. unfold setitem. by rewrite Hk. Qed.

(** The three ways a call of [toggle_mark] can go on a board with a 5x5 grid
    of marks: the guard skips the free space; a subscript is out of range,
    the call raises and nothing has changed; or one flag is flipped. *)
Lemma toggle_mark_cases (self : BingoBoard.t) (row col : Z) :
  grid5 (BingoBoard.marked self) ->
  ((row, col) = BingoBoard.free_space_pos
   /\ BingoBoard.toggle_mark row col self = (self, Returns tt))
  \/ (~ (-5 <= row < 5 /\ -5 <= col < 5)
      /\ BingoBoard.toggle_mark row col self = (self, Raises IndexError))
  \/ (exists kr kc r b,
        (row, col) <> BingoBoard.free_space_pos
        /\ norm_index 5 row = Returns kr /\ norm_index 5 col = Returns kc
        /\ BingoBoard.marked self !! kr = Some r /\ r !! kc = Some b
        /\ BingoBoard.toggle_mark row col self
           = (BingoBoard.set_marked
                (<[kr := <[kc := negb b]> r]> (BingoBoard.marked self)) self,
              Returns tt)).
Proof.
  intros Hg. unfold BingoBoard.toggle_mark.
  destruct (decide ((row, col) ≠ BingoBoard.free_space_pos)) as [Hne|Heq].
  2:{ left. split; [|done]. by destruct (decide ((row, col) = BingoBoard.free_space_pos)). }
  right. unfold_M.
  pose proof Hg as [Hlen _].
  destruct (getitem_cases (BingoBoard.marked self) row)
    as [(kr & r & Hkr & Hr & ->)|[Hout ->]].
  2:{ left. split; [|done]. rewrite Hlen in Hout. lia. }
  pose proof (grid5_row _ _ _ Hg Hr) as Hrlen.
  destruct (getitem_cases r col) as [(kc & b & Hkc & Hb & ->)|[Hout ->]].
  2:{ left. split; [|done]. rewrite Hrlen in Hout. lia. }
  right. exists kr, kc, r, b.
  rewrite (setitem_Returns _ _ _ _ Hkc), (setitem_Returns _ _ _ _ Hkr).
  rewrite Hlen in Hkr. rewrite Hrlen in Hkc. done.
Qed.

Lemma norm_index_5_in_range (i : Z) :
  0 <= i < 5 -> norm_index 5 i = Returns (Z.to_nat i).
Proof. intros H. by apply norm_index_nonneg. Qed.

Lemma toggle_mark_valid (self self' : BingoBoard.t) (row col : Z) (r : outcome unit) :
  valid_board self ->
  BingoBoard.toggle_mark row col self = (self', r) ->
  valid_board self'
  /\ BingoBoard.board self' = BingoBoard.board self
  /\ BingoBoard.buzzwords self' = BingoBoard.buzzwords self.
Proof.
  intros [Hb Hm] Ht.
  destruct (toggle_mark_cases self row col Hm)
    as [[_ Heq]|[[_ Heq]|(kr & kc & rw & b & _ & _ & _ & Hrw & _ & Heq)]];
    rewrite Heq in Ht; injection Ht as <- <-; try done.
  split; [|done]. split; [done|]. simpl.
  apply grid5_insert; [done|]. rewrite length_insert. by eapply grid5_row.
Qed.

(** ** reset_marks and generate_board *)

Lemma reset_marks_eq (self : BingoBoard.t) :
  BingoBoard.reset_marks self = (BingoBoard.set_marked fresh_marks self, Returns tt).
Proof. reflexivity. Qed.

Lemma grid5_fresh_marks : grid5 fresh_marks.
Proof. split; [done|]. repeat constructor. Qed.

Lemma generate_board_short (rnd : nat -> nat) (self : BingoBoard.t) :
  (length (BingoBoard.buzzwords self) < 24)%nat ->
  BingoBoard.generate_board rnd self = (self, Raises ValueError).
Proof.
  intros Hlen. unfold BingoBoard.generate_board. unfold_M.
  unfold random_sample. rewrite decide_False by lia. done.
Qed.

Lemma list_24 {A} (l : list A) :
  length l = 24%nat ->
  exists a0 a1 a2 a3 a4 a5 a6 a7 a8 a9 a10 a11 a12 a13 a14 a15 a16 a17 a18
         a19 a20 a21 a22 a23,
    l = [a0; a1; a2; a3; a4; a5; a6; a7; a8; a9; a10; a11; a12; a13; a14;
         a15; a16; a17; a18; a19; a20; a21; a22; a23].
Proof.
  intros H.
  do 24 (destruct l as [|? l]; [discriminate H|]).
  destruct l; [|discriminate H]. repeat eexists.
Qed.

Lemma sample_loop_length {A} (rnd : nat -> nat) (k i : nat) (pool : list A) :
  (k <= length pool)%nat -> length (sample_loop rnd i pool k) = k.
Proof.
  revert i pool. induction k as [|k IH]; intros i pool Hk; simpl; [done|].
  destruct (lookup_lt_is_Some_2 pool (rnd i mod length pool)) as [x Hx].
  { apply Nat.mod_upper_bound. lia. }
  rewrite Hx. simpl. f_equal. apply IH. rewrite length_delete; [lia|eauto].
Qed.

(** Drawing without replacement: the selection is a sub-multiset of the pool. *)
Lemma sample_loop_submseteq {A} (rnd : nat -> nat) (k i : nat) (pool : list A) :
  sample_loop rnd i pool k ⊆+ pool.
Proof.
  revert i pool. induction k as [|k IH]; intros i pool; simpl.
  - apply submseteq_nil_l.
  - destruct (pool !! (rnd i mod length pool)%nat) as [x|] eqn:Hx.
    + etrans; [apply submseteq_skip, IH|].
      apply Permutation_submseteq. symmetry. by apply delete_Permutation.
    + apply submseteq_nil_l.
Qed.

Lemma submseteq_NoDup_l {A} (l k : list A) : l ⊆+ k -> NoDup k -> NoDup l.
Proof.
  intros Hsub Hk. apply submseteq_sublist_l in Hsub as (k' & Hsl & Hperm).
  assert (NoDup k') as Hk' by (by rewrite Hperm).
  eauto using sublist_NoDup.
Qed.

Lemma generate_board_long (rnd : nat -> nat) (self : BingoBoard.t) :
  (24 <= length (BingoBoard.buzzwords self))%nat ->
  BingoBoard.generate_board rnd self
  = (BingoBoard.mk (BingoBoard.buzzwords self)
       (layout (sample_loop rnd 0 (BingoBoard.buzzwords self) 24)) fresh_marks,
     Returns tt).
Proof.
  intros Hlen. unfold BingoBoard.generate_board. unfold_M.
  unfold random_sample. rewrite decide_True by lia.
  destruct (list_24 _ (sample_loop_length rnd 24 0 _ Hlen))
    as (a0 & a1 & a2 & a3 & a4 & a5 & a6 & a7 & a8 & a9 & a10 & a11 & a12
        & a13 & a14 & a15 & a16 & a17 & a18 & a19 & a20 & a21 & a22 & a23 & ->).
  reflexivity.
Qed.

(** ** Session steps *)

Lemma list_5 {A} (l : list A) :
  length l = 5%nat -> exists a b c d e, l = [a; b; c; d; e].
Proof.
  intros H. do 5 (destruct l as [|? l]; [discriminate H|]).
  destruct l; [|discriminate H]. repeat eexists.
Qed.

Lemma grid5_explicit {A} (g : list (list A)) :
  grid5 g ->
  exists a00 a01 a02 a03 a04 a10 a11 a12 a13 a14 a20 a21 a22 a23 a24 a30 a31 a32 a33 a34 a40 a41 a42 a43 a44,
    g = [[a00; a01; a02; a03; a04];
         [a10; a11; a12; a13; a14];
         [a20; a21; a22; a23; a24];
         [a30; a31; a32; a33; a34];
         [a40; a41; a42; a43; a44]].
Proof.
  intros [Hlen Hrows].
  destruct (list_5 g Hlen) as (r0 & r1 & r2 & r3 & r4 & ->).
  rewrite !Forall_cons in Hrows.
  destruct Hrows as (H0 & H1 & H2 & H3 & H4 & _).
  destruct (list_5 r0 H0) as (? & ? & ? & ? & ? & ->).
  destruct (list_5 r1 H1) as (? & ? & ? & ? & ? & ->).
  destruct (list_5 r2 H2) as (? & ? & ? & ? & ? & ->).
  destruct (list_5 r3 H3) as (? & ? & ? & ? & ? & ->).
  destruct (list_5 r4 H4) as (? & ? & ? & ? & ? & ->).
  repeat eexists.
Qed.

Ltac explicit_grid H :=
  apply grid5_explicit in H as (? & ? & ? & ? & ? & ? & ? & ? & ? & ? & ? & ? & ? & ? & ? & ? & ? & ? & ? & ? & ? & ? & ? & ? & ? & ?);
  simplify_eq/=.

Lemma for_accM_unit_inv {S A} (P : S -> Prop) (xs : list A)
    (body : A -> unit -> M S unit) :
  (forall x s, x ∈ xs -> P s -> exists s', P s' /\ body x tt s = (s', Returns tt)) ->
  forall s, P s -> exists s', P s' /\ for_accM xs tt body s = (s', Returns tt).
Proof.
  induction xs as [|x xs IH]; intros Hbody s Hs; simpl.
  - exists s. done.
  - destruct (Hbody x s) as (s1 & Hs1 & Heq); [apply elem_of_cons; by left|done|].
    destruct IH with (s := s1) as (s2 & Hs2 & Heq2); [|done|].
    { intros y s' Hy. apply Hbody. apply elem_of_cons. by right. }
    exists s2. split; [done|]. unfold_M. by rewrite Heq.
Qed.

Lemma update_display_ok (self : BingoUI.t) :
  grid5 (BingoBoard.marked (BingoUI.board self)) ->
  grid5 (BingoUI.tile_widgets self) ->
  exists tw, grid5 tw
    /\ BingoUI.update_display self = (BingoUI.set_tile_widgets tw self, Returns tt).
Proof.
  intros Hm Ht.
  destruct (for_accM_unit_inv (redisplayed self) (range 5)
    (fun row _ => for_accM (range 5) tt (fun col _ =>
      tw ← gets BingoUI.tile_widgets;
      tile_row ← lift (getitem tw row);
      w ← lift (getitem tile_row col);
      b ← gets BingoUI.board;
      marked ← lift (BingoBoard.marked_at b row col);
      winning ← gets (fun self => BingoUI.is_winning_tile self row col);
      active ← gets BingoUI.bingo_active;
      let w' := BingoUI.tile_set_winning (winning && active)
                  (BingoUI.tile_set_marked marked w) in
      tile_row' ← lift (setitem tile_row col w');
      tw' ← lift (setitem tw row tile_row');
      modify (BingoUI.set_tile_widgets tw')))) with (s := self)
    as (s' & [Hg Hs'] & Heq).
  - intros row s Hrow Hs. apply for_accM_unit_inv; [|done].
    clear s Hs. intros col s Hcol [Hg Hs].
    apply elem_of_range_5 in Hrow. apply elem_of_range_5 in Hcol.
    unfold_M.
    destruct (getitem_nonneg (BingoUI.tile_widgets s) row) as (tr & Htr & ->).
    { destruct Hg as [-> _]. lia. }
    pose proof (grid5_row _ _ _ Hg Htr) as Hlen.
    destruct (getitem_nonneg tr col) as (w & Hw & ->); [lia|].
    assert (BingoUI.board s = BingoUI.board self) as -> by (by rewrite Hs).
    rewrite marked_at_cell by done.
    unfold setitem. rewrite norm_index_nonneg by lia.
    rewrite bind_Returns.
    rewrite norm_index_nonneg by (destruct Hg as [-> _]; lia).
    rewrite bind_Returns.
    eexists. split; [|reflexivity]. split.
    + simpl. apply grid5_insert; [done|]. by rewrite length_insert.
    + clear -Hs. destruct s, self. unfold BingoUI.set_tile_widgets in *.
      simpl in *. by simplify_eq.
  - split; [done|]. by destruct self.
  - exists (BingoUI.tile_widgets s'). split; [done|].
    rewrite <- Hs'. exact Heq.
Qed.

Lemma create_tiles_ok (self : BingoUI.t) :
  grid5 (BingoBoard.board (BingoUI.board self)) ->
  exists tw, grid5 tw
    /\ BingoUI.create_tiles self = (BingoUI.set_tile_widgets tw self, Returns tt).
Proof.
  intros Hb. destruct self as [[pool bd m] tw act wl en log]. simpl in *.
  explicit_grid Hb.
  eexists. split; [|reflexivity].
  split; [done|]. repeat constructor.
Qed.

Arguments BingoUI.update_display : simpl never.
Arguments BingoBoard.check_bingo : simpl never.

Lemma dismiss_bingo_spec (self : BingoUI.t) :
  exists self',
    BingoUI.dismiss_bingo self = (self', Returns tt)
    /\ BingoUI.board self' = BingoUI.board self
    /\ BingoUI.tile_widgets self' = BingoUI.tile_widgets self
    /\ BingoUI.bingo_active self' = BingoUI.bingo_active self
    /\ BingoUI.winning_lines self' = BingoUI.winning_lines self
    /\ BingoUI.continue_button_enabled self' = false
    /\ BingoUI.celebrations self' = BingoUI.celebrations self.
Proof.
  destruct self as [b tw act wl [|] log];
    (eexists; split; [reflexivity|]); simpl; repeat split; try done.
  unfold BingoUI.celebrations. simpl.
  rewrite !filter_app, !length_app. simpl. lia.
Qed.

Arguments BingoUI.dismiss_bingo : simpl never.

(** The effect of [check_and_show_bingo] on a session with 5x5 grids. *)
Lemma check_and_show_bingo_spec (self : BingoUI.t) :
  grid5 (BingoBoard.marked (BingoUI.board self)) ->
  grid5 (BingoUI.tile_widgets self) ->
  exists self',
    BingoUI.check_and_show_bingo self = (self', Returns tt)
    /\ BingoUI.board self' = BingoUI.board self
    /\ BingoBoard.check_bingo (BingoUI.board self)
       = Returns (BingoUI.winning_lines self')
    /\ grid5 (BingoUI.tile_widgets self')
    /\ (BingoUI.bingo_active self = true ->
        BingoUI.bingo_active self' = true
        /\ BingoUI.celebrations self' = BingoUI.celebrations self
        /\ (BingoUI.continue_button_enabled self' = true ->
            BingoUI.continue_button_enabled self = true))
    /\ (BingoUI.bingo_active self = false ->
        if BingoUI.truthy (BingoUI.winning_lines self')
        then BingoUI.bingo_active self' = true
             /\ BingoUI.continue_button_enabled self' = true
             /\ BingoUI.celebrations self' = S (BingoUI.celebrations self)
        else BingoUI.bingo_active self' = false
             /\ BingoUI.continue_button_enabled self'
                = BingoUI.continue_button_enabled self
             /\ BingoUI.celebrations self' = BingoUI.celebrations self).
Proof.
  intros Hm Ht. pose proof (check_bingo_filter _ Hm) as Hcb.
  destruct self as [b tw act wl en log]. simpl in *.
  unfold BingoUI.check_and_show_bingo. unfold_M. rewrite Hcb. simpl.
  rewrite Hcb. clear Hcb.
  generalize (filter (fun l => complete (BingoBoard.marked b) l) all_lines).
  intros lines. unfold BingoUI.celebrations. simpl.
  destruct lines as [|l lines], act; simpl.
  - change (BingoUI.set_winning_lines [] _) with (BingoUI.mk b tw true [] en log).
    destruct (dismiss_bingo_spec
      (BingoUI.mk b tw true [] en log)) as (s' & -> & Hb & Htw & Hact & Hwl & Hen & Hc).
    exists s'. simpl in *. rewrite Hwl, Htw, Hen. unfold BingoUI.celebrations in Hc.
    repeat split; try done; apply Ht.
  - eexists. split; [reflexivity|]. simpl. repeat split; try done; apply Ht.
  - eexists. split; [reflexivity|]. simpl. repeat split; try done; apply Ht.
  - match goal with
    | |- context [BingoUI.update_display ?s] =>
        destruct (update_display_ok s) as (tw' & Hg' & ->); [done|done|]
    end.
    eexists. split; [reflexivity|]. simpl. repeat split; try done; try apply Hg'.
    rewrite !filter_app, !length_app. simpl. lia.
Qed.

Lemma toggle_mark_raises (self self' : BingoBoard.t) (row col : Z) (e : exn) :
  grid5 (BingoBoard.marked self) ->
  BingoBoard.toggle_mark row col self = (self', Raises e) -> self' = self.
Proof.
  intros Hm Ht.
  destruct (toggle_mark_cases self row col Hm)
    as [[_ Heq]|[[_ Heq]|(kr & kc & rw & b & _ & _ & _ & _ & _ & Heq)]];
    rewrite Heq in Ht; by simplify_eq.
Qed.

Lemma set_board_same (s : BingoUI.t) : BingoUI.set_board (BingoUI.board s) s = s.
Proof. by destruct s. Qed.

Lemma check_bingo_fresh (self : BingoBoard.t) :
  BingoBoard.marked self = fresh_marks -> BingoBoard.check_bingo self = Returns [].
Proof.
  intros Hm. rewrite check_bingo_filter by (rewrite Hm; apply grid5_fresh_marks).
  rewrite Hm. reflexivity.
Qed.

Lemma fresh_session_inv (s : BingoUI.t) : fresh_session s -> session_inv s.
Proof.
  intros (Hv & Hm & Ht & Hact & Hwl & _). repeat split; try done; try apply Hv; try apply Ht.
  rewrite Hwl. by apply check_bingo_fresh.
Qed.

Lemma click_effect_refl (s : BingoUI.t) : session_inv s -> click_effect s s.
Proof.
  intros Hinv. split; [done|]. split; [done|].
  intros Hact. destruct Hinv as (_ & _ & _ & Hwl). rewrite (Hwl Hact). done.
Qed.

Lemma on_tile_click_effect (s : BingoUI.t) (row col : Z) :
  session_inv s -> click_effect s (fst (BingoUI.on_tile_click row col s)).
Proof.
  intros Hinv. pose proof Hinv as (Hv & Ht & Hcb & Hidle).
  unfold BingoUI.on_tile_click. unfold_M.
  destruct (BingoBoard.toggle_mark row col (BingoUI.board s)) as [b' [[]|e]] eqn:Htm.
  - destruct (toggle_mark_valid _ _ _ _ _ Hv Htm) as (Hv' & _ & _).
    destruct (update_display_ok (BingoUI.set_board b' s)) as (tw1 & Hg1 & ->);
      [by destruct Hv'|done|].
    destruct (check_and_show_bingo_spec
                (BingoUI.set_tile_widgets tw1 (BingoUI.set_board b' s)))
      as (s' & -> & Hb' & Hcb' & Hg' & Hact & Hidle'); [by destruct Hv'|done|].
    simpl in *. unfold BingoUI.celebrations in *. simpl in *.
    split; [|split].
    + split; [by rewrite Hb'|]. split; [done|]. split; [by rewrite Hb'|].
      intros Hf. destruct (BingoUI.bingo_active s) eqn:Hs.
      * destruct Hact as [Hact _]; [done|]. congruence.
      * specialize (Hidle' eq_refl).
        destruct (BingoUI.winning_lines s'); [done|].
        simpl in Hidle'. destruct Hidle' as [? _]. congruence.
    + done.
    + intros Hs. specialize (Hidle' Hs).
      destruct (BingoUI.truthy (BingoUI.winning_lines s')); tauto.
  - apply toggle_mark_raises in Htm as ->; [|by destruct Hv].
    rewrite set_board_same. simpl. by apply click_effect_refl.
Qed.

Lemma dismiss_bingo_effect (s : BingoUI.t) :
  session_inv s -> click_effect s (fst (BingoUI.dismiss_bingo s)).
Proof.
  intros Hinv. pose proof Hinv as (Hv & Ht & Hcb & Hidle).
  destruct (dismiss_bingo_spec s) as (s' & -> & Hb & Htw & Hact & Hwl & Hen & Hc).
  simpl. split; [|split].
  - unfold session_inv. by rewrite Hb, Htw, Hact, Hwl.
  - intros Hs. rewrite Hact, Hen. done.
  - intros Hs. rewrite Hwl, (Hidle Hs), Hact. done.
Qed.

Lemma handle_effect (s : BingoUI.t) (c : BingoUI.click) :
  session_inv s -> click_effect s (fst (BingoUI.handle c s)).
Proof.
  destruct c as [row col|]; simpl.
  - apply on_tile_click_effect.
  - apply dismiss_bingo_effect.
Qed.

Lemma click_effect_step_ok (s s' : BingoUI.t) :
  click_effect s s' ->
  step_ok (s, s')
  /\ fires (s, s') = negb (BingoUI.bingo_active s) && board_wins s'.
Proof.
  intros ((_ & _ & Hcb & _) & Hact & Hidle).
  unfold step_ok, fires, board_wins, BingoUI.session_phase. simpl.
  rewrite Hcb.
  destruct (BingoUI.bingo_active s) eqn:Hs.
  - destruct Hact as (-> & -> & Hen); [done|]. rewrite Nat.eqb_refl. simpl.
    repeat split; try done.
    + by destruct (BingoUI.continue_button_enabled s').
    + destruct (BingoUI.continue_button_enabled s'), (BingoUI.continue_button_enabled s);
        try done. by specialize (Hen eq_refl).
  - specialize (Hidle eq_refl).
    destruct (BingoUI.truthy (BingoUI.winning_lines s')).
    + destruct Hidle as (-> & -> & ->).
      rewrite (proj2 (Nat.eqb_neq _ _)) by lia. done.
    + destruct Hidle as (-> & ->). rewrite Nat.eqb_refl. done.
Qed.

Lemma steps_after_win (cs : list BingoUI.click) (s : BingoUI.t) :
  session_inv s -> BingoUI.bingo_active s = true ->
  Forall step_ok (steps cs s)
  /\ fires <$> steps cs s = (fun _ => false) <$> steps cs s
  /\ BingoUI.celebrations (BingoUI.run cs s) = BingoUI.celebrations s.
Proof.
  revert s. induction cs as [|c cs IH]; intros s Hinv Hact; [done|].
  cbn [steps BingoUI.run]. rewrite !fmap_cons.
  pose proof (handle_effect s c Hinv) as Heff.
  destruct (click_effect_step_ok _ _ Heff) as [Hok Hf].
  destruct Heff as (Hinv' & Hact' & _). destruct (Hact' Hact) as (Ha & Hc & _).
  destruct (IH _ Hinv' Ha) as (IH1 & IH2 & IH3).
  split; [by constructor|]. split.
  - rewrite Hf, Hact, IH2. done.
  - by rewrite IH3.
Qed.

Lemma steps_before_win (cs : list BingoUI.click) (s : BingoUI.t) :
  session_inv s -> BingoUI.bingo_active s = false ->
  Forall step_ok (steps cs s)
  /\ fires <$> steps cs s = first_only ((fun p => board_wins p.2) <$> steps cs s)
  /\ (BingoUI.celebrations (BingoUI.run cs s) <= S (BingoUI.celebrations s))%nat.
Proof.
  revert s. induction cs as [|c cs IH]; intros s Hinv Hact.
  { split; [done|]. split; [done|]. simpl. lia. }
  cbn [steps BingoUI.run]. rewrite !fmap_cons. cbn [snd first_only].
  pose proof (handle_effect s c Hinv) as Heff.
  destruct (click_effect_step_ok _ _ Heff) as [Hok Hf].
  destruct Heff as (Hinv' & _ & Hidle'). specialize (Hidle' Hact).
  rewrite Hf, Hact. simpl.
  assert (board_wins (BingoUI.handle c s).1
          = BingoUI.truthy (BingoUI.winning_lines (BingoUI.handle c s).1)) as Hw.
  { unfold board_wins. destruct Hinv' as (_ & _ & -> & _). done. }
  rewrite Hw.
  destruct (BingoUI.truthy (BingoUI.winning_lines (BingoUI.handle c s).1)).
  - destruct Hidle' as (Ha & _ & Hc).
    destruct (steps_after_win cs _ Hinv' Ha) as (IH1 & IH2 & IH3).
    split; [by constructor|]. split.
    + rewrite IH2, <- list_fmap_compose. done.
    + rewrite IH3, Hc. lia.
  - destruct Hidle' as (Ha & Hc).
    destruct (IH _ Hinv' Ha) as (IH1 & IH2 & IH3).
    split; [by constructor|]. split.
    + by rewrite IH2.
    + rewrite Hc in IH3. done.
Qed.

(** ** Fresh sessions *)

Lemma layout_grid5 (sel : list string) : grid5 (layout sel).
Proof. split; [done|]. repeat constructor. Qed.

Arguments BingoUI.create_tiles : simpl never.
Arguments layout : simpl never.
Arguments sample_loop : simpl never.

Ltac solve_grid5 :=
  simpl; first [done | apply grid5_fresh_marks | (split; [done|repeat constructor])].

Ltac run_display :=
  match goal with
  | |- context [BingoUI.update_display ?s1] =>
      let tw := fresh "tw" in let Hg := fresh "Hg" in
      destruct (update_display_ok s1) as (tw & Hg & ->);
        [solve_grid5|solve_grid5|]
  end.

Ltac run_tiles :=
  match goal with
  | |- context [BingoUI.create_tiles ?s1] =>
      let tw := fresh "tw" in let Hg := fresh "Hg" in
      destruct (create_tiles_ok s1) as (tw & Hg & ->); [apply layout_grid5|]
  end.

Lemma ui_reset_marks_fresh (s : BingoUI.t) :
  grid5 (BingoBoard.board (BingoUI.board s)) ->
  grid5 (BingoUI.tile_widgets s) ->
  exists s',
    BingoUI.reset_marks s = (s', Returns tt)
    /\ BingoUI.board s' = BingoBoard.set_marked fresh_marks (BingoUI.board s)
    /\ fresh_session s'.
Proof.
  intros Hb Ht. destruct s as [b tw act wl en log]. simpl in *.
  unfold BingoUI.reset_marks, BingoUI.update_continue_button. unfold_M.
  rewrite reset_marks_eq. simpl. run_display.
  eexists. split; [reflexivity|]. split; [done|].
  unfold fresh_session, valid_board. simpl.
  pose proof grid5_fresh_marks. done.
Qed.

Lemma ui_new_board_fresh (rnd : nat -> nat) (s : BingoUI.t) :
  (24 <= length (BingoBoard.buzzwords (BingoUI.board s)))%nat ->
  exists s',
    BingoUI.new_board rnd s = (s', Returns tt)
    /\ BingoUI.board s' = fst (BingoBoard.generate_board rnd (BingoUI.board s))
    /\ fresh_session s'.
Proof.
  intros Hlen. destruct s as [b tw act wl en log]. simpl in *.
  rewrite (generate_board_long rnd b Hlen). cbn [fst].
  unfold BingoUI.new_board, BingoUI.update_continue_button. unfold_M.
  rewrite generate_board_long by done. simpl. try run_tiles. run_display.
  eexists. split; [reflexivity|]. split; [done|].
  unfold fresh_session, valid_board. simpl.
  pose proof grid5_fresh_marks.
  pose proof (layout_grid5 (sample_loop rnd 0 (BingoBoard.buzzwords b) 24)). done.
Qed.

Lemma ui_init_fresh (rnd : nat -> nat) (buzzwords : list string) :
  (24 <= length buzzwords)%nat ->
  exists s, BingoUI.init rnd buzzwords = Returns s /\ fresh_session s.
Proof.
  intros Hlen.
  pose proof (generate_board_long rnd (BingoBoard.mk buzzwords [] []) Hlen) as Hgen.
  cbn [BingoBoard.buzzwords] in Hgen.
  unfold BingoUI.init, BingoBoard.init. rewrite Hgen.
  unfold BingoUI.setup_ui, BingoUI.update_continue_button. unfold_M.
  run_tiles. simpl. run_display.
  eexists. split; [reflexivity|].
  unfold fresh_session, valid_board. simpl.
  pose proof grid5_fresh_marks.
  pose proof (layout_grid5 (sample_loop rnd 0 buzzwords 24)). done.
Qed.

Ltac compute_grid5 := vm_compute; split; [reflexivity|repeat constructor].

(** ** Win detection *)

Lemma line_cells_in_range (l : BingoBoard.line) (r c : Z) :
  l ∈ all_lines -> (r, c) ∈ line_cells l -> 0 <= r < 5 /\ 0 <= c < 5.
Proof.
  intros Hl Hc. unfold all_lines in Hl.
  repeat (apply elem_of_cons in Hl as [->|Hl]);
    try (by apply elem_of_nil in Hl);
    vm_compute line_cells in Hc;
    repeat (apply elem_of_cons in Hc as [[= -> ->]|Hc]);
    try (by apply elem_of_nil in Hc); lia.
Qed.

(** The cells of a line are the tiles that [is_winning_tile] highlights for
    that line. *)
Lemma line_cells_tile_on_lines (l : BingoBoard.line) (r c : Z) :
  l ∈ all_lines -> 0 <= r < 5 -> 0 <= c < 5 ->
  bool_decide ((r, c) ∈ line_cells l) = BingoUI.tile_on_lines [l] r c.
Proof.
  intros Hl Hr Hc. unfold all_lines in Hl.
  assert (r = 0 \/ r = 1 \/ r = 2 \/ r = 3 \/ r = 4) as Hr' by lia.
  assert (c = 0 \/ c = 1 \/ c = 2 \/ c = 3 \/ c = 4) as Hc' by lia.
  clear Hr Hc.
  repeat (apply elem_of_cons in Hl as [->|Hl]);
    try (by apply elem_of_nil in Hl);
    destruct Hr' as [->|[->|[->|[->| ->]]]];
    destruct Hc' as [->|[->|[->|[->| ->]]]];
    vm_compute; reflexivity.
Qed.

Lemma complete_marked_at (self : BingoBoard.t) (l : BingoBoard.line) :
  grid5 (BingoBoard.marked self) -> l ∈ all_lines ->
  complete (BingoBoard.marked self) l = true
  <-> forall r c, (r, c) ∈ line_cells l ->
        BingoBoard.marked_at self r c = Returns true.
Proof.
  intros Hg Hl. unfold complete.
  rewrite <- Is_true_true, forallb_True, Forall_forall. split.
  - intros H r c Hc. destruct (line_cells_in_range l r c Hl Hc).
    rewrite marked_at_cell by done. f_equal.
    apply Is_true_true. exact (H (r, c) Hc).
  - intros H [r c] Hc. simpl. destruct (line_cells_in_range l r c Hl Hc).
    specialize (H r c Hc). rewrite marked_at_cell in H by done.
    apply Is_true_true. congruence.
Qed.

(** C1. On every validly constructed board [check_bingo] returns, and a
    descriptor is in the returned list exactly when it is one of the 12 lines
    (5 rows, 5 columns, 2 diagonals, each of 5 cells) and all the cells of
    that line are marked; so every line that is complete at the same time is
    reported. *)
Theorem check_bingo_reports_complete_lines (self : BingoBoard.t) :
  valid_board self ->
  Forall (fun l => length (line_cells l) = 5%nat) all_lines
  /\ exists lines,
       BingoBoard.check_bingo self = Returns lines
       /\ forall l, l ∈ lines
            <-> l ∈ all_lines
                /\ forall r c, (r, c) ∈ line_cells l ->
                     BingoBoard.marked_at self r c = Returns true.
Proof.
  intros [_ Hg]. split; [repeat constructor|].
  eexists. split; [by apply check_bingo_filter|].
  intros l. rewrite list_elem_of_filter. split.
  - intros [Hc Hl]. split; [done|].
    apply complete_marked_at; [done|done|]. by apply Is_true_true.
  - intros [Hl Hc]. split; [|done].
    apply Is_true_true. by apply complete_marked_at.
Qed.

Lemma check_bingo_reports_complete_lines_witness :
  valid_board (BingoUI.board (sample_after 9))
  /\ BingoBoard.check_bingo (BingoUI.board (sample_after 9))
     = Returns [("diag", 0); ("diag", 1)]%string
  /\ exists lines,
       BingoBoard.check_bingo (BingoUI.board (sample_after 9)) = Returns lines
       /\ forall l, l ∈ lines
            <-> l ∈ all_lines
                /\ forall r c, (r, c) ∈ line_cells l ->
                     BingoBoard.marked_at (BingoUI.board (sample_after 9)) r c
                     = Returns true.
Proof.
  assert (valid_board (BingoUI.board (sample_after 9))) as Hv by (split; compute_grid5).
  split; [exact Hv|]. split; [vm_compute; reflexivity|].
  exact (proj2 (check_bingo_reports_complete_lines (BingoUI.board (sample_after 9)) Hv)).
Defined.

(** C9. The list returned by [check_bingo] has no duplicates, holds only
    descriptors among the 12 of [all_lines], and lists them in the order of
    [all_lines]: rows by ascending index, then columns by ascending index,
    then [("diag", 0)], then [("diag", 1)]. *)
Theorem check_bingo_order (self : BingoBoard.t) :
  valid_board self ->
  exists lines,
    BingoBoard.check_bingo self = Returns lines
    /\ NoDup lines
    /\ (forall l, l ∈ lines -> l ∈ all_lines)
    /\ lines `sublist_of` all_lines.
Proof.
  intros [_ Hg]. eexists. split; [by apply check_bingo_filter|].
  split; [|split].
  - apply NoDup_filter. unfold all_lines.
    repeat (apply NoDup_cons; split; [rewrite ?elem_of_cons, elem_of_nil; intros H;
      repeat destruct H as [H|H]; discriminate H || done|]).
    apply NoDup_nil_2.
  - intros l Hl. by apply list_elem_of_filter in Hl as [_ Hl].
  - apply sublist_filter.
Qed.

Lemma check_bingo_order_witness :
  valid_board (BingoUI.board (sample_after 9))
  /\ BingoBoard.check_bingo (BingoUI.board (sample_after 9))
     = Returns [("diag", 0); ("diag", 1)]%string
  /\ exists lines,
       BingoBoard.check_bingo (BingoUI.board (sample_after 9)) = Returns lines
       /\ NoDup lines
       /\ (forall l, l ∈ lines -> l ∈ all_lines)
       /\ lines `sublist_of` all_lines.
Proof.
  assert (valid_board (BingoUI.board (sample_after 9))) as Hv by (split; compute_grid5).
  split; [exact Hv|]. split; [vm_compute; reflexivity|].
  exact (check_bingo_order (BingoUI.board (sample_after 9)) Hv).
Defined.

(** The two examples of the specification. *)
Example check_bingo_both_diagonals :
  BingoBoard.check_bingo (BingoUI.board (BingoUI.run diagonal_clicks sample_session))
  = Returns [("diag", 0); ("diag", 1)]%string.
Proof. vm_compute. reflexivity. Qed.

Example check_bingo_row_0 :
  BingoBoard.check_bingo
    (BingoUI.board
       (BingoUI.run [BingoUI.TileClick 0 0; BingoUI.TileClick 0 1; BingoUI.TileClick 0 2;
                     BingoUI.TileClick 0 3; BingoUI.TileClick 0 4] sample_session))
  = Returns [("row", 0)]%string.
Proof. vm_compute. reflexivity. Qed.

(** C10. Right after [generate_board] (on a pool of at least 24 entries) and
    right after [reset_marks] the marks are those of a fresh board, the center
    only, and [check_bingo] returns the empty list. *)
Theorem fresh_board_has_no_bingo (self : BingoBoard.t) :
  (exists b,
     BingoBoard.reset_marks self = (b, Returns tt)
     /\ BingoBoard.marked b = fresh_marks
     /\ BingoBoard.check_bingo b = Returns [])
  /\ forall rnd,
       (24 <= length (BingoBoard.buzzwords self))%nat ->
       exists b,
         BingoBoard.generate_board rnd self = (b, Returns tt)
         /\ BingoBoard.marked b = fresh_marks
         /\ BingoBoard.check_bingo b = Returns [].
Proof.
  split.
  - eexists. split; [apply reset_marks_eq|]. split; [done|].
    by apply check_bingo_fresh.
  - intros rnd Hlen. eexists. split; [by apply generate_board_long|].
    split; [done|]. by apply check_bingo_fresh.
Qed.

Lemma fresh_board_has_no_bingo_witness :
  (24 <= length (BingoBoard.buzzwords sample_board))%nat
  /\ exists b,
       BingoBoard.generate_board sample_rnd sample_board = (b, Returns tt)
       /\ BingoBoard.marked b = fresh_marks
       /\ BingoBoard.check_bingo b = Returns [].
Proof.
  assert (24 <= length (BingoBoard.buzzwords sample_board))%nat as H
    by (vm_compute; lia).
  split; [exact H|].
  exact (proj2 (fresh_board_has_no_bingo sample_board) sample_rnd H).
Defined.

(** ** Board generation *)

Lemma layout_concat (sel : list string) :
  length sel = 24%nat ->
  concat (layout sel) = take 12 sel ++ "FREE SPACE"%string :: drop 12 sel.
Proof.
  intros H.
  destruct (list_24 sel H)
    as (a0 & a1 & a2 & a3 & a4 & a5 & a6 & a7 & a8 & a9 & a10 & a11 & a12
        & a13 & a14 & a15 & a16 & a17 & a18 & a19 & a20 & a21 & a22 & a23 & ->).
  reflexivity.
Qed.

Lemma fresh_marks_center (r c : Z) :
  0 <= r < 5 -> 0 <= c < 5 ->
  cell fresh_marks r c = true <-> (r, c) = BingoBoard.free_space_pos.
Proof.
  intros Hr Hc. unfold BingoBoard.free_space_pos.
  assert (r = 0 \/ r = 1 \/ r = 2 \/ r = 3 \/ r = 4) as Hr' by lia.
  assert (c = 0 \/ c = 1 \/ c = 2 \/ c = 3 \/ c = 4) as Hc' by lia.
  destruct Hr' as [->|[->|[->|[->| ->]]]];
    destruct Hc' as [->|[->|[->|[->| ->]]]];
    vm_compute; split; congruence.
Qed.

(** C2. From a pool of at least 24 distinct phrases [generate_board] returns
    and leaves a 5x5 board: read row by row and with the center skipped, the
    cells hold the 24 selected phrases in their order; the selected phrases
    are distinct and are drawn from the pool without replacement; the center
    holds the label ["FREE SPACE"]; and among the 25 flags exactly the one of
    the center is set. *)
Theorem generate_board_layout (rnd : nat -> nat) (self : BingoBoard.t) :
  NoDup (BingoBoard.buzzwords self) ->
  (24 <= length (BingoBoard.buzzwords self))%nat ->
  exists selected b,
    BingoBoard.generate_board rnd self = (b, Returns tt)
    /\ random_sample rnd (BingoBoard.buzzwords self) 24 = Returns selected
    /\ length selected = 24%nat
    /\ NoDup selected
    /\ selected ⊆+ BingoBoard.buzzwords self
    /\ (forall x, x ∈ selected -> x ∈ BingoBoard.buzzwords self)
    /\ BingoBoard.buzzwords b = BingoBoard.buzzwords self
    /\ valid_board b
    /\ concat (BingoBoard.board b)
       = take 12 selected ++ "FREE SPACE"%string :: drop 12 selected
    /\ (BingoBoard.board b !! 2%nat ≫= fun row => row !! 2%nat)
       = Some "FREE SPACE"%string
    /\ forall r c, 0 <= r < 5 -> 0 <= c < 5 ->
         (cell (BingoBoard.marked b) r c = true
          <-> (r, c) = BingoBoard.free_space_pos).
Proof.
  intros Hnd Hlen.
  pose proof (sample_loop_submseteq rnd 24 0 (BingoBoard.buzzwords self)) as Hsub.
  pose proof (sample_loop_length rnd 24 0 _ Hlen) as Hsel.
  exists (sample_loop rnd 0 (BingoBoard.buzzwords self) 24). eexists.
  split; [by apply generate_board_long|].
  split; [unfold random_sample; by rewrite decide_True|].
  split; [done|].
  split; [by eapply submseteq_NoDup_l|].
  split; [done|].
  split; [intros x Hx; by eapply elem_of_submseteq|].
  split; [done|].
  split; [split; [apply layout_grid5|apply grid5_fresh_marks]|].
  split; [by apply layout_concat|].
  split; [done|].
  apply fresh_marks_center.
Qed.

Lemma main_buzzwords_NoDup : NoDup main_buzzwords.
Proof. apply (bool_decide_unpack (NoDup main_buzzwords)). vm_compute. exact I. Qed.

Lemma generate_board_layout_witness :
  NoDup (BingoBoard.buzzwords sample_board)
  /\ (24 <= length (BingoBoard.buzzwords sample_board))%nat
  /\ exists selected b,
       BingoBoard.generate_board sample_rnd sample_board = (b, Returns tt)
       /\ random_sample sample_rnd (BingoBoard.buzzwords sample_board) 24
          = Returns selected
       /\ length selected = 24%nat
       /\ NoDup selected
       /\ selected ⊆+ BingoBoard.buzzwords sample_board
       /\ (forall x, x ∈ selected -> x ∈ BingoBoard.buzzwords sample_board)
       /\ BingoBoard.buzzwords b = BingoBoard.buzzwords sample_board
       /\ valid_board b
       /\ concat (BingoBoard.board b)
          = take 12 selected ++ "FREE SPACE"%string :: drop 12 selected
       /\ (BingoBoard.board b !! 2%nat ≫= fun row => row !! 2%nat)
          = Some "FREE SPACE"%string
       /\ forall r c, 0 <= r < 5 -> 0 <= c < 5 ->
            (cell (BingoBoard.marked b) r c = true
             <-> (r, c) = BingoBoard.free_space_pos).
Proof.
  assert (NoDup (BingoBoard.buzzwords sample_board)) as Hnd
    by (apply (bool_decide_unpack (NoDup (BingoBoard.buzzwords sample_board)));
        vm_compute; exact I).
  assert (24 <= length (BingoBoard.buzzwords sample_board))%nat as Hlen
    by (vm_compute; lia).
  split; [exact Hnd|]. split; [exact Hlen|].
  exact (generate_board_layout sample_rnd sample_board Hnd Hlen).
Defined.

(** C5. [generate_board] raises exactly when the pool has fewer than 24
    entries: it then raises [ValueError] and leaves the board as it was; with
    24 entries or more it returns.  The constructor of the window calls it
    first, so with a short pool no session comes to exist. *)
Theorem generate_board_fails_iff_short_pool (rnd : nat -> nat) (self : BingoBoard.t) :
  ((length (BingoBoard.buzzwords self) < 24)%nat ->
     BingoBoard.generate_board rnd self = (self, Raises ValueError)
     /\ BingoUI.init rnd (BingoBoard.buzzwords self) = Raises ValueError)
  /\ ((24 <= length (BingoBoard.buzzwords self))%nat ->
      (exists b, BingoBoard.generate_board rnd self = (b, Returns tt))
      /\ exists s, BingoUI.init rnd (BingoBoard.buzzwords self) = Returns s)
  /\ (snd (BingoBoard.generate_board rnd self) <> Returns tt
      <-> (length (BingoBoard.buzzwords self) < 24)%nat).
Proof.
  split; [|split].
  - intros Hlen. split; [by apply generate_board_short|].
    unfold BingoUI.init, BingoBoard.init.
    by rewrite generate_board_short.
  - intros Hlen. split.
    + eexists. by apply generate_board_long.
    + destruct (ui_init_fresh rnd _ Hlen) as (s & Hs & _). eauto.
  - destruct (decide (length (BingoBoard.buzzwords self) < 24)%nat) as [Hlt|Hge].
    + rewrite generate_board_short by done. simpl. split; [done|]. by intros _ [=].
    + rewrite generate_board_long by lia. simpl. split; [by intros []|done].
Qed.

Lemma generate_board_fails_iff_short_pool_witness :
  ((length (take 23 main_buzzwords) < 24)%nat
   /\ BingoBoard.generate_board sample_rnd (BingoBoard.mk (take 23 main_buzzwords) [] [])
      = (BingoBoard.mk (take 23 main_buzzwords) [] [], Raises ValueError)
   /\ BingoUI.init sample_rnd (take 23 main_buzzwords) = Raises ValueError)
  /\ ((24 <= length (take 24 main_buzzwords))%nat
      /\ (exists b, BingoBoard.generate_board sample_rnd
                      (BingoBoard.mk (take 24 main_buzzwords) [] []) = (b, Returns tt))
      /\ exists s, BingoUI.init sample_rnd (take 24 main_buzzwords) = Returns s).
Proof.
  assert (length (take 23 main_buzzwords) < 24)%nat as Hshort by (vm_compute; lia).
  assert (24 <= length (take 24 main_buzzwords))%nat as Hlong by (vm_compute; lia).
  split.
  - split; [exact Hshort|].
    exact (proj1 (generate_board_fails_iff_short_pool sample_rnd
                    (BingoBoard.mk (take 23 main_buzzwords) [] [])) Hshort).
  - split; [exact Hlong|].
    exact (proj1 (proj2 (generate_board_fails_iff_short_pool sample_rnd
                    (BingoBoard.mk (take 24 main_buzzwords) [] []))) Hlong).
Defined.

(** ** Toggling *)

Lemma norm_index_Returns_range (n : nat) (i : Z) (k : nat) :
  norm_index n i = Returns k -> - Z.of_nat n <= i < Z.of_nat n.
Proof. unfold norm_index. repeat case_decide; intros [=]; lia. Qed.

(** C8. On a validly constructed board, for a cell [(row, col)] in range that
    is not the free space, one call of [toggle_mark] returns and flips the
    flag of the cell, and a second call returns and leaves the board exactly
    as it was before the first. *)
Theorem toggle_mark_twice (self : BingoBoard.t) (row col : Z) :
  valid_board self ->
  0 <= row < 5 -> 0 <= col < 5 -> (row, col) <> BingoBoard.free_space_pos ->
  exists b,
    BingoBoard.toggle_mark row col self = (b, Returns tt)
    /\ cell (BingoBoard.marked b) row col = negb (cell (BingoBoard.marked self) row col)
    /\ BingoBoard.toggle_mark row col b = (self, Returns tt).
Proof.
  intros Hv Hrow Hcol Hne. pose proof Hv as [_ Hm].
  destruct (toggle_mark_cases self row col Hm)
    as [[Heq _]|[[Hout _]|(kr & kc & r & b & _ & Hkr & Hkc & Hr & Hb & Heq)]];
    [done|lia|].
  rewrite norm_index_5_in_range in Hkr, Hkc by done.
  injection Hkr as <-. injection Hkc as <-.
  pose proof (lookup_lt_Some _ _ _ Hr) as Hrlt.
  pose proof (lookup_lt_Some _ _ _ Hb) as Hblt.
  eexists. split; [exact Heq|]. split.
  { unfold cell. simpl.
    rewrite list_lookup_insert_eq by done. simpl.
    rewrite list_lookup_insert_eq by done. rewrite Hr. simpl. by rewrite Hb. }
  destruct (toggle_mark_valid _ _ _ _ _ Hv Heq) as ([_ Hm'] & _ & _).
  destruct (toggle_mark_cases _ row col Hm')
    as [[Heq' _]|[[Hout _]|(kr & kc & r' & b' & _ & Hkr & Hkc & Hr' & Hb' & Heq')]];
    [done|lia|].
  rewrite norm_index_5_in_range in Hkr, Hkc by done.
  injection Hkr as <-. injection Hkc as <-.
  rewrite Heq'. f_equal. simpl in *.
  rewrite list_lookup_insert_eq in Hr' by done. injection Hr' as <-.
  rewrite list_lookup_insert_eq in Hb' by done. injection Hb' as <-.
  rewrite negb_involutive, !list_insert_insert_eq.
  rewrite (list_insert_id r) by done. rewrite list_insert_id by done.
  destruct self. done.
Qed.

Lemma toggle_mark_twice_witness :
  valid_board sample_board
  /\ 0 <= 1 < 5 /\ 0 <= 3 < 5 /\ (1, 3) <> BingoBoard.free_space_pos
  /\ exists b,
       BingoBoard.toggle_mark 1 3 sample_board = (b, Returns tt)
       /\ cell (BingoBoard.marked b) 1 3
          = negb (cell (BingoBoard.marked sample_board) 1 3)
       /\ BingoBoard.toggle_mark 1 3 b = (sample_board, Returns tt).
Proof.
  assert (valid_board sample_board) as Hv by (split; compute_grid5).
  assert (0 <= 1 < 5) as H1 by lia.
  assert (0 <= 3 < 5) as H3 by lia.
  assert ((1, 3) <> BingoBoard.free_space_pos) as Hne by (vm_compute; congruence).
  split; [exact Hv|]. split; [exact H1|]. split; [exact H3|]. split; [exact Hne|].
  exact (toggle_mark_twice sample_board 1 3 Hv H1 H3 Hne).
Defined.

(** C3, as stated, fails: with a row index of 5 the call raises [IndexError],
    and with a row index of -1 it returns and has flipped a flag of the last
    row. *)
Lemma toggle_mark_out_of_range_not_noop :
  valid_board sample_board
  /\ ~ (0 <= 5 < 5)
  /\ snd (BingoBoard.toggle_mark 5 0 sample_board) = Raises IndexError
  /\ ~ (0 <= -1 < 5)
  /\ BingoBoard.toggle_mark (-1) 0 sample_board
     = (BingoBoard.set_marked
          [[false; false; false; false; false];
           [false; false; false; false; false];
           [false; false; true; false; false];
           [false; false; false; false; false];
           [true; false; false; false; false]] sample_board, Returns tt)
  /\ fst (BingoBoard.toggle_mark (-1) 0 sample_board) <> sample_board.
Proof.
  split; [split; compute_grid5|].
  split; [lia|]. split; [vm_compute; reflexivity|].
  split; [lia|]. split; [vm_compute; reflexivity|].
  vm_compute. intros [=].
Qed.

(** C3, amended. On a validly constructed board, when [row] or [col] lies
    outside [-5 .. 4] the call of [toggle_mark] raises [IndexError] and leaves
    the whole board, phrases and flags, as it was. *)
Theorem toggle_mark_out_of_range_raises (self : BingoBoard.t) (row col : Z) :
  valid_board self ->
  ~ (-5 <= row < 5 /\ -5 <= col < 5) ->
  BingoBoard.toggle_mark row col self = (self, Raises IndexError).
Proof.
  intros [_ Hm] Hout.
  destruct (toggle_mark_cases self row col Hm)
    as [[Heq _]|[[_ Heq]|(kr & kc & r & b & _ & Hkr & Hkc & _)]].
  - exfalso. apply Hout. injection Heq as -> ->. lia.
  - done.
  - exfalso. apply Hout.
    apply norm_index_Returns_range in Hkr. apply norm_index_Returns_range in Hkc.
    lia.
Qed.

Lemma toggle_mark_out_of_range_raises_witness :
  valid_board sample_board
  /\ ~ (-5 <= 5 < 5 /\ -5 <= 0 < 5)
  /\ BingoBoard.toggle_mark 5 0 sample_board = (sample_board, Raises IndexError).
Proof.
  assert (valid_board sample_board) as Hv by (split; compute_grid5).
  assert (~ (-5 <= 5 < 5 /\ -5 <= 0 < 5)) as Hout by lia.
  split; [exact Hv|]. split; [exact Hout|].
  exact (toggle_mark_out_of_range_raises sample_board 5 0 Hv Hout).
Defined.

(** ** The free space *)

(** What the guard of [toggle_mark] does keep: with coordinates in [0 .. 4]
    no call of [toggle_mark] changes the flag of the center, and
    [generate_board] and [reset_marks] set it. *)
Lemma free_space_kept_in_range (self : BingoBoard.t) (row col : Z) :
  valid_board self -> 0 <= row < 5 -> 0 <= col < 5 ->
  cell (BingoBoard.marked (fst (BingoBoard.toggle_mark row col self))) 2 2
  = cell (BingoBoard.marked self) 2 2.
Proof.
  intros [_ Hm] Hrow Hcol.
  destruct (toggle_mark_cases self row col Hm)
    as [[_ ->]|[[_ ->]|(kr & kc & r & b & Hne & Hkr & Hkc & Hr & Hb & ->)]];
    [done|done|].
  rewrite norm_index_5_in_range in Hkr, Hkc by done.
  injection Hkr as <-. injection Hkc as <-.
  unfold cell. simpl. change (Z.to_nat 2) with 2%nat.
  destruct (decide (Z.to_nat row = 2%nat)) as [Hr2|Hr2].
  - rewrite Hr2 in *. rewrite list_lookup_insert_eq by by eapply lookup_lt_Some.
    rewrite Hr. simpl.
    rewrite list_lookup_insert_ne; [done|].
    intros Hc2. apply Hne. unfold BingoBoard.free_space_pos. f_equal; lia.
  - by rewrite list_lookup_insert_ne.
Qed.

Lemma run_ops_keeps_free_space (ops : list board_op) (self : BingoBoard.t) :
  valid_board self ->
  cell (BingoBoard.marked self) 2 2 = true ->
  Forall tile_coordinates ops ->
  valid_board (run_ops ops self)
  /\ cell (BingoBoard.marked (run_ops ops self)) 2 2 = true.
Proof.
  revert self. induction ops as [|op ops IH]; intros self Hv Hc Hops; [done|].
  apply Forall_cons_1 in Hops as [Hop Hops]. cbn [run_ops].
  apply IH; [| |done].
  - destruct op as [rnd|row col|]; cbn [apply_op].
    + destruct (decide (24 <= length (BingoBoard.buzzwords self))%nat) as [Hlen|Hlen].
      * rewrite generate_board_long by done. simpl.
        split; [apply layout_grid5|apply grid5_fresh_marks].
      * by rewrite generate_board_short by lia.
    + destruct (BingoBoard.toggle_mark row col self) as [b o] eqn:Htm.
      by destruct (toggle_mark_valid _ _ _ _ _ Hv Htm) as (Hv' & _).
    + rewrite reset_marks_eq. simpl. destruct Hv as [Hb _].
      split; [done|apply grid5_fresh_marks].
  - destruct op as [rnd|row col|]; cbn [apply_op].
    + destruct (decide (24 <= length (BingoBoard.buzzwords self))%nat) as [Hlen|Hlen].
      * by rewrite generate_board_long by done.
      * by rewrite generate_board_short by lia.
    + destruct Hop as [Hrow Hcol]. by rewrite free_space_kept_in_range.
    + by rewrite reset_marks_eq.
Qed.

(** C6. The flag of the center cell is always set: [generate_board] (on a
    pool of at least 24 entries) and [reset_marks] return with it set;
    [toggle_mark(2, 2)] returns and changes nothing at all; and on a validly
    constructed board whose center is marked, no sequence of [generate_board],
    [reset_marks] and [toggle_mark] calls with the coordinates of tiles
    (row and column in [0 .. 4]) ever leaves the flag cleared. *)
Theorem free_space_always_marked (self : BingoBoard.t) :
  (forall rnd, (24 <= length (BingoBoard.buzzwords self))%nat ->
     exists b, BingoBoard.generate_board rnd self = (b, Returns tt)
               /\ cell (BingoBoard.marked b) 2 2 = true)
  /\ (exists b, BingoBoard.reset_marks self = (b, Returns tt)
                /\ cell (BingoBoard.marked b) 2 2 = true)
  /\ BingoBoard.toggle_mark 2 2 self = (self, Returns tt)
  /\ (valid_board self ->
      cell (BingoBoard.marked self) 2 2 = true ->
      forall ops, Forall tile_coordinates ops ->
        cell (BingoBoard.marked (run_ops ops self)) 2 2 = true).
Proof.
  split; [|split; [|split]].
  - intros rnd Hlen. eexists. split; [by apply generate_board_long|]. done.
  - eexists. split; [apply reset_marks_eq|]. done.
  - done.
  - intros Hv Hc ops Hops. by apply run_ops_keeps_free_space.
Qed.

Lemma free_space_always_marked_witness :
  (24 <= length (BingoBoard.buzzwords sample_board))%nat
  /\ valid_board sample_board
  /\ cell (BingoBoard.marked sample_board) 2 2 = true
  /\ Forall tile_coordinates
       [OpToggle 0 0; OpToggle 2 2; OpToggle 2 3; OpReset; OpToggle 1 1;
        OpGenerate sample_rnd; OpToggle 4 4; OpToggle 2 2]
  /\ (exists b, BingoBoard.generate_board sample_rnd sample_board = (b, Returns tt)
                /\ cell (BingoBoard.marked b) 2 2 = true)
  /\ cell (BingoBoard.marked
             (run_ops [OpToggle 0 0; OpToggle 2 2; OpToggle 2 3; OpReset; OpToggle 1 1;
                       OpGenerate sample_rnd; OpToggle 4 4; OpToggle 2 2]
                sample_board)) 2 2 = true.
Proof.
  assert (24 <= length (BingoBoard.buzzwords sample_board))%nat as Hlen
    by (vm_compute; lia).
  assert (valid_board sample_board) as Hv by (split; compute_grid5).
  assert (cell (BingoBoard.marked sample_board) 2 2 = true) as Hc
    by (vm_compute; reflexivity).
  assert (Forall tile_coordinates
            [OpToggle 0 0; OpToggle 2 2; OpToggle 2 3; OpReset; OpToggle 1 1;
             OpGenerate sample_rnd; OpToggle 4 4; OpToggle 2 2]) as Hops
    by (repeat (constructor; [simpl; first [exact I | lia]|]); constructor).
  split; [exact Hlen|]. split; [exact Hv|]. split; [exact Hc|]. split; [exact Hops|].
  split.
  - exact (proj1 (free_space_always_marked sample_board) sample_rnd Hlen).
  - exact (proj2 (proj2 (proj2 (free_space_always_marked sample_board))) Hv Hc _ Hops).
Defined.

(** Outside the coordinates of the tiles the guard of [toggle_mark] does not
    cover the center: it compares [(row, col)] with [(2, 2)] only, and the
    subscripts [-3] address row 2 and column 2 as well.  The window never
    makes this call. *)
Example toggle_mark_negative_alias_clears_free_space :
  cell (BingoBoard.marked sample_board) 2 2 = true
  /\ BingoBoard.toggle_mark (-3) (-3) sample_board
     = (BingoBoard.set_marked (replicate 5 (replicate 5 false)) sample_board,
        Returns tt)
  /\ cell (BingoBoard.marked (fst (BingoBoard.toggle_mark (-3) (-3) sample_board))) 2 2
     = false.
Proof. repeat split; vm_compute; reflexivity. Qed.

(** ** Reset *)

Lemma ui_reset_marks_spec (s : BingoUI.t) :
  grid5 (BingoUI.tile_widgets s) ->
  exists s',
    BingoUI.reset_marks s = (s', Returns tt)
    /\ BingoUI.board s' = BingoBoard.set_marked fresh_marks (BingoUI.board s)
    /\ grid5 (BingoUI.tile_widgets s')
    /\ BingoUI.bingo_active s' = false
    /\ BingoUI.winning_lines s' = []
    /\ BingoUI.continue_button_enabled s' = false.
Proof.
  intros Ht. destruct s as [b tw act wl en log]. simpl in *.
  unfold BingoUI.reset_marks, BingoUI.update_continue_button. unfold_M.
  rewrite reset_marks_eq. simpl. run_display.
  eexists. split; [reflexivity|]. done.
Qed.

(** C7. On every board [reset_marks] returns, leaves the phrase grid (and the
    pool) as it was, and leaves the marks of a fresh board: the flag of the
    center set and the 24 others cleared.  In a session (whose tile grid is
    5x5) the handler [reset_marks] returns, has reset the board in this way,
    has emptied the winning lines and has put the session in phase [Idle]. *)
Theorem reset_marks_frame (s : BingoUI.t) :
  (exists b,
     BingoBoard.reset_marks (BingoUI.board s) = (b, Returns tt)
     /\ BingoBoard.board b = BingoBoard.board (BingoUI.board s)
     /\ BingoBoard.buzzwords b = BingoBoard.buzzwords (BingoUI.board s)
     /\ BingoBoard.marked b = fresh_marks
     /\ forall r c, 0 <= r < 5 -> 0 <= c < 5 ->
          (cell (BingoBoard.marked b) r c = true
           <-> (r, c) = BingoBoard.free_space_pos))
  /\ (grid5 (BingoUI.tile_widgets s) ->
      exists s',
        BingoUI.reset_marks s = (s', Returns tt)
        /\ BingoUI.board s' = fst (BingoBoard.reset_marks (BingoUI.board s))
        /\ BingoUI.winning_lines s' = []
        /\ BingoUI.session_phase s' = BingoUI.Idle).
Proof.
  split.
  - eexists. split; [apply reset_marks_eq|]. simpl.
    repeat split; try done; by apply fresh_marks_center.
  - intros Ht.
    destruct (ui_reset_marks_spec s Ht) as (s' & Heq & Hb & _ & Hact & Hwl & _).
    exists s'. split; [done|]. rewrite reset_marks_eq. simpl.
    split; [done|]. split; [done|].
    unfold BingoUI.session_phase. by rewrite Hact.
Qed.

Lemma reset_marks_frame_witness :
  grid5 (BingoUI.tile_widgets (BingoUI.run diagonal_clicks sample_session))
  /\ exists s',
       BingoUI.reset_marks (BingoUI.run diagonal_clicks sample_session)
       = (s', Returns tt)
       /\ BingoUI.board s'
          = fst (BingoBoard.reset_marks
                   (BingoUI.board (BingoUI.run diagonal_clicks sample_session)))
       /\ BingoUI.winning_lines s' = []
       /\ BingoUI.session_phase s' = BingoUI.Idle.
Proof.
  assert (grid5 (BingoUI.tile_widgets (BingoUI.run diagonal_clicks sample_session)))
    as Ht by compute_grid5.
  split; [exact Ht|].
  exact (proj2 (reset_marks_frame (BingoUI.run diagonal_clicks sample_session)) Ht).
Defined.

(** ** The celebration *)

Lemma fresh_session_idle (s : BingoUI.t) :
  fresh_session s -> BingoUI.session_phase s = BingoUI.Idle.
Proof.
  intros (_ & _ & _ & Hact & _). unfold BingoUI.session_phase. by rewrite Hact.
Qed.

(** C4. From a fresh session (the one left by the constructor, [new_board] or
    [reset_marks]; its phase is [Idle]) and for every sequence of clicks on
    tiles and on the continue button:
    - after every click the winning lines of the session are what
      [check_bingo] returns on the board of the session;
    - a click made in phase [Celebrating] or [Acknowledged] launches no
      celebration and leaves the session out of phase [Idle], and a click
      made in phase [Acknowledged] leaves it there;
    - a click that launches the celebration is made in phase [Idle] and leads
      to phase [Celebrating];
    - the clicks that launch the celebration are the first click after which
      [check_bingo] finds a winning line, and no other;
    - so the celebration is launched at most once. *)
Theorem celebration_fires_once (s0 : BingoUI.t) (cs : list BingoUI.click) :
  fresh_session s0 ->
  BingoUI.session_phase s0 = BingoUI.Idle
  /\ Forall (fun p =>
       BingoBoard.check_bingo (BingoUI.board p.2)
       = Returns (BingoUI.winning_lines p.2)
       /\ (BingoUI.session_phase p.1 <> BingoUI.Idle ->
           BingoUI.celebrations p.2 = BingoUI.celebrations p.1
           /\ BingoUI.session_phase p.2 <> BingoUI.Idle)
       /\ (BingoUI.session_phase p.1 = BingoUI.Acknowledged ->
           BingoUI.session_phase p.2 = BingoUI.Acknowledged)
       /\ (fires p = true ->
           BingoUI.session_phase p.1 = BingoUI.Idle
           /\ BingoUI.session_phase p.2 = BingoUI.Celebrating))
     (steps cs s0)
  /\ fires <$> steps cs s0 = first_only ((fun p => board_wins p.2) <$> steps cs s0)
  /\ (BingoUI.celebrations (BingoUI.run cs s0) <= S (BingoUI.celebrations s0))%nat.
Proof.
  intros Hfresh. split; [by apply fresh_session_idle|].
  apply steps_before_win.
  - by apply fresh_session_inv.
  - by destruct Hfresh as (_ & _ & _ & Hact & _).
Qed.

Lemma celebration_fires_once_witness :
  fresh_session sample_session
  /\ fires <$> steps diagonal_clicks sample_session
     = [false; false; false; true; false; false; false; false; false]
  /\ (fun p => board_wins p.2) <$> steps diagonal_clicks sample_session
     = [false; false; false; true; true; true; true; true; true]
  /\ fires <$> steps diagonal_clicks sample_session
     = first_only ((fun p => board_wins p.2) <$> steps diagonal_clicks sample_session)
  /\ (BingoUI.celebrations (BingoUI.run diagonal_clicks sample_session)
      <= S (BingoUI.celebrations sample_session))%nat.
Proof.
  assert (fresh_session sample_session) as Hfresh.
  { split; [split; compute_grid5|].
    split; [vm_compute; reflexivity|].
    split; [compute_grid5|].
    vm_compute. repeat split. }
  split; [exact Hfresh|].
  split; [vm_compute; reflexivity|].
  split; [vm_compute; reflexivity|].
  exact (proj2 (proj2 (celebration_fires_once sample_session diagonal_clicks Hfresh))).
Defined.

(** * Further properties *)

Ltac compute_fresh_session :=
  split; [split; compute_grid5|];
  split; [vm_compute; reflexivity|];
  split; [compute_grid5|];
  vm_compute; repeat split.

Ltac compute_session_inv :=
  split; [split; compute_grid5|];
  split; [compute_grid5|];
  split; [vm_compute; reflexivity|];
  vm_compute; let H := fresh in intros H; first [reflexivity | discriminate H].

(** ** One toggle *)

Lemma norm_index_5_mod (i : Z) :
  -5 <= i < 5 -> norm_index 5 i = Returns (Z.to_nat (i mod 5)).
Proof.
  intros H. unfold norm_index. destruct (decide (0 <= i)) as [Hi|Hi].
  - rewrite decide_True by lia. by rewrite Z.mod_small by lia.
  - rewrite decide_False by lia. rewrite decide_True by lia.
    f_equal. f_equal. Z.div_mod_to_equations. lia.
Qed.

Lemma cell_insert (m : list (list bool)) (kr kc : nat) (r : list bool) (b v : bool)
    (r' c' : Z) :
  m !! kr = Some r -> r !! kc = Some b -> 0 <= r' -> 0 <= c' ->
  cell (<[kr := <[kc := v]> r]> m) r' c'
  = if decide (Z.to_nat r' = kr /\ Z.to_nat c' = kc) then v else cell m r' c'.
Proof.
  intros Hr Hb Hr' Hc'. unfold cell.
  pose proof (lookup_lt_Some _ _ _ Hr). pose proof (lookup_lt_Some _ _ _ Hb).
  destruct (decide (Z.to_nat r' = kr)) as [<-|Hne].
  - rewrite list_lookup_insert_eq by done. rewrite Hr. simpl.
    destruct (decide (Z.to_nat c' = kc)) as [<-|Hne].
    + rewrite list_lookup_insert_eq by done. by rewrite decide_True.
    + rewrite list_lookup_insert_ne by done. rewrite decide_False by tauto. done.
  - rewrite list_lookup_insert_ne by done. rewrite decide_False by tauto. done.
Qed.

Lemma toggle_mark_cells (self : BingoBoard.t) (row col : Z) :
  valid_board self ->
  -5 <= row < 5 -> -5 <= col < 5 -> (row, col) <> BingoBoard.free_space_pos ->
  exists b,
    BingoBoard.toggle_mark row col self = (b, Returns tt)
    /\ BingoBoard.board b = BingoBoard.board self
    /\ BingoBoard.buzzwords b = BingoBoard.buzzwords self
    /\ valid_board b
    /\ forall r c, 0 <= r < 5 -> 0 <= c < 5 ->
         cell (BingoBoard.marked b) r c
         = if decide (r = row mod 5 /\ c = col mod 5)
           then negb (cell (BingoBoard.marked self) r c)
           else cell (BingoBoard.marked self) r c.
Proof.
  intros Hv Hrow Hcol Hne. pose proof Hv as [_ Hm].
  destruct (toggle_mark_cases self row col Hm)
    as [[Heq _]|[[Hout _]|(kr & kc & rw & b & _ & Hkr & Hkc & Hr & Hb & Heq)]];
    [done|tauto|].
  rewrite norm_index_5_mod in Hkr, Hkc by done.
  injection Hkr as <-. injection Hkc as <-.
  destruct (toggle_mark_valid _ _ _ _ _ Hv Heq) as (Hv' & Hbd & Hpool).
  eexists. split; [exact Heq|]. split; [done|]. split; [done|]. split; [done|].
  intros r c Hr' Hc'. simpl.
  rewrite (cell_insert _ _ _ _ b) by (done || lia).
  assert (0 <= row mod 5 < 5) by (apply Z.mod_pos_bound; lia).
  assert (0 <= col mod 5 < 5) by (apply Z.mod_pos_bound; lia).
  destruct (decide (r = row mod 5 /\ c = col mod 5)) as [[-> ->]|Hn].
  - rewrite decide_True by done. unfold cell. rewrite Hr. simpl. by rewrite Hb.
  - rewrite decide_False; [done|]. intros [H1 H2]. apply Hn. lia.
Qed.

(** X1. On a validly constructed board, for [row] and [col] in [-5 .. 4]
    other than the pair [(2, 2)], [toggle_mark] returns, leaves the phrase
    grid and the pool as they were, and flips the flag of exactly one cell,
    the one at row [row mod 5], column [col mod 5]; the 24 other flags are
    unchanged. *)
Theorem toggle_mark_flips_one_cell (self : BingoBoard.t) (row col : Z) :
  valid_board self ->
  -5 <= row < 5 -> -5 <= col < 5 -> (row, col) <> BingoBoard.free_space_pos ->
  exists b,
    BingoBoard.toggle_mark row col self = (b, Returns tt)
    /\ BingoBoard.board b = BingoBoard.board self
    /\ BingoBoard.buzzwords b = BingoBoard.buzzwords self
    /\ valid_board b
    /\ forall r c, 0 <= r < 5 -> 0 <= c < 5 ->
         cell (BingoBoard.marked b) r c
         = if decide (r = row mod 5 /\ c = col mod 5)
           then negb (cell (BingoBoard.marked self) r c)
           else cell (BingoBoard.marked self) r c.
Proof.
  intros Hv Hrow Hcol Hne.
  destruct (toggle_mark_cells self row col Hv Hrow Hcol Hne)
    as (b & Heq & Hbd & Hp & Hv' & Hcell).
  exists b. split; [exact Heq|]. split; [exact Hbd|]. split; [exact Hp|].
  split; [exact Hv'|]. exact Hcell.
Qed.

Lemma toggle_mark_flips_one_cell_witness :
  valid_board sample_board
  /\ -5 <= -1 < 5 /\ -5 <= 0 < 5 /\ (-1, 0) <> BingoBoard.free_space_pos
  /\ exists b,
       BingoBoard.toggle_mark (-1) 0 sample_board = (b, Returns tt)
       /\ BingoBoard.board b = BingoBoard.board sample_board
       /\ BingoBoard.buzzwords b = BingoBoard.buzzwords sample_board
       /\ valid_board b
       /\ forall r c, 0 <= r < 5 -> 0 <= c < 5 ->
            cell (BingoBoard.marked b) r c
            = if decide (r = -1 mod 5 /\ c = 0 mod 5)
              then negb (cell (BingoBoard.marked sample_board) r c)
              else cell (BingoBoard.marked sample_board) r c.
Proof.
  assert (valid_board sample_board) as Hv by (split; compute_grid5).
  assert (-5 <= -1 < 5) as H1 by lia.
  assert (-5 <= 0 < 5) as H2 by lia.
  assert ((-1, 0) <> BingoBoard.free_space_pos) as Hne by (vm_compute; congruence).
  split; [exact Hv|]. split; [exact H1|]. split; [exact H2|]. split; [exact Hne|].
  exact (toggle_mark_flips_one_cell sample_board (-1) 0 Hv H1 H2 Hne).
Defined.

Lemma forallb_eq_on {A} (f g : A -> bool) (l : list A) :
  (forall x, x ∈ l -> f x = g x) -> forallb f l = forallb g l.
Proof.
  induction l as [|x l IH]; intros H; [done|]. simpl.
  rewrite (H x) by (apply elem_of_cons; by left).
  rewrite IH; [done|]. intros y Hy. apply H. apply elem_of_cons. by right.
Qed.

(** X2. On a validly constructed board, toggling a cell in range other than
    the free space changes the result of [check_bingo] only for the lines
    through that cell: a line that does not contain the cell is reported after
    the call exactly when it was reported before.  Marking a cell removes no
    line from the result, and unmarking a cell adds none. *)
Theorem toggle_mark_line_status (self : BingoBoard.t) (row col : Z) :
  valid_board self ->
  0 <= row < 5 -> 0 <= col < 5 -> (row, col) <> BingoBoard.free_space_pos ->
  exists b before after,
    BingoBoard.toggle_mark row col self = (b, Returns tt)
    /\ BingoBoard.check_bingo self = Returns before
    /\ BingoBoard.check_bingo b = Returns after
    /\ (forall l, (row, col) ∉ line_cells l -> (l ∈ after <-> l ∈ before))
    /\ (cell (BingoBoard.marked self) row col = false ->
        forall l, l ∈ before -> l ∈ after)
    /\ (cell (BingoBoard.marked self) row col = true ->
        forall l, l ∈ after -> l ∈ before).
Proof.
  intros Hv Hrow Hcol Hne.
  destruct (toggle_mark_cells self row col Hv) as (b & Heq & _ & _ & Hv' & Hcell);
    [lia|lia|done|].
  rewrite !Z.mod_small in Hcell by lia.
  exists b. eexists. eexists. split; [done|].
  split; [apply check_bingo_filter; by destruct Hv|].
  split; [apply check_bingo_filter; by destruct Hv'|].
  assert (forall l r c, l ∈ all_lines -> (r, c) ∈ line_cells l ->
            cell (BingoBoard.marked b) r c
            = if decide (r = row /\ c = col)
              then negb (cell (BingoBoard.marked self) r c)
              else cell (BingoBoard.marked self) r c) as Hc.
  { intros l r c Hl Hrc. destruct (line_cells_in_range l r c Hl Hrc). by apply Hcell. }
  split; [|split].
  - intros l Hnot. rewrite !list_elem_of_filter.
    split; intros [Hcomp Hl]; (split; [|done]); revert Hcomp; unfold complete;
      (erewrite forallb_eq_on; [exact id|]); intros [r c] Hrc; simpl;
      rewrite (Hc l r c Hl Hrc); (rewrite decide_False; [done|]);
      intros [-> ->]; done.
  - intros Hfalse l. rewrite !list_elem_of_filter. intros [Hcomp Hl]. split; [|done].
    unfold complete in *. apply forallb_True, Forall_forall.
    apply forallb_True in Hcomp. rewrite Forall_forall in Hcomp.
    intros [r c] Hrc. simpl. rewrite (Hc l r c Hl Hrc). case_decide as Hd.
    + destruct Hd as [-> ->]. by rewrite Hfalse.
    + exact (Hcomp (r, c) Hrc).
  - intros Htrue l. rewrite !list_elem_of_filter. intros [Hcomp Hl]. split; [|done].
    unfold complete in *. apply forallb_True, Forall_forall.
    apply forallb_True in Hcomp. rewrite Forall_forall in Hcomp.
    intros [r c] Hrc. specialize (Hcomp (r, c) Hrc). simpl in *.
    rewrite (Hc l r c Hl Hrc) in Hcomp. case_decide as Hd.
    + destruct Hd as [-> ->]. by rewrite Htrue in Hcomp.
    + done.
Qed.


Lemma toggle_mark_line_status_witness :
  valid_board (BingoUI.board (sample_after 9))
  /\ 0 <= 0 < 5 /\ (0, 0) <> BingoBoard.free_space_pos
  /\ cell (BingoBoard.marked (BingoUI.board (sample_after 9))) 0 0 = true
  /\ BingoBoard.check_bingo (BingoUI.board (sample_after 9))
     = Returns [("diag", 0); ("diag", 1)]%string
  /\ BingoBoard.check_bingo
       (fst (BingoBoard.toggle_mark 0 0 (BingoUI.board (sample_after 9))))
     = Returns [("diag", 1)]%string
  /\ exists b before after,
       BingoBoard.toggle_mark 0 0 (BingoUI.board (sample_after 9)) = (b, Returns tt)
       /\ BingoBoard.check_bingo (BingoUI.board (sample_after 9)) = Returns before
       /\ BingoBoard.check_bingo b = Returns after
       /\ (forall l, (0, 0) ∉ line_cells l -> (l ∈ after <-> l ∈ before))
       /\ (cell (BingoBoard.marked (BingoUI.board (sample_after 9))) 0 0 = false ->
           forall l, l ∈ before -> l ∈ after)
       /\ (cell (BingoBoard.marked (BingoUI.board (sample_after 9))) 0 0 = true ->
           forall l, l ∈ after -> l ∈ before).
Proof.
  assert (valid_board (BingoUI.board (sample_after 9))) as Hv by (split; compute_grid5).
  assert (0 <= 0 < 5) as H0 by lia.
  assert ((0, 0) <> BingoBoard.free_space_pos) as Hne by (vm_compute; congruence).
  split; [exact Hv|]. split; [exact H0|]. split; [exact Hne|].
  split; [vm_compute; reflexivity|]. split; [vm_compute; reflexivity|].
  split; [vm_compute; reflexivity|].
  exact (toggle_mark_line_status (BingoUI.board (sample_after 9)) 0 0 Hv H0 H0 Hne).
Defined.

(** ** Closed forms of the handlers *)

Lemma update_display_displayed (s : BingoUI.t) :
  grid5 (BingoBoard.marked (BingoUI.board s)) ->
  grid5 (BingoUI.tile_widgets s) ->
  BingoUI.update_display s = (redisplay s, Returns tt).
Proof.
  intros Hm Ht.
  destruct s as [[pool bd m] tw act wl en log]. simpl in *.
  apply grid5_explicit in Hm as (?&?&?&?&?&?&?&?&?&?&?&?&?&?&?&?&?&?&?&?&?&?&?&?&?&->).
  apply grid5_explicit in Ht as (?&?&?&?&?&?&?&?&?&?&?&?&?&?&?&?&?&?&?&?&?&?&?&?&?&->).
  vm_compute. reflexivity.
Qed.

Lemma displayed_grid5 (s : BingoUI.t) :
  grid5 (BingoUI.tile_widgets s) -> grid5 (displayed s).
Proof.
  intros [Hlen Hrows]. unfold displayed. split.
  - by rewrite length_imap.
  - apply Forall_lookup. intros i row Hrow.
    rewrite list_lookup_imap in Hrow.
    destruct (BingoUI.tile_widgets s !! i) as [row0|] eqn:H0; [|done].
    simpl in Hrow. injection Hrow as <-. rewrite length_imap.
    rewrite Forall_lookup in Hrows. eauto.
Qed.

Lemma tile_at_redisplay (s : BingoUI.t) (r c : Z) :
  0 <= r -> 0 <= c ->
  tile_at (redisplay s) r c
  = (fun w => BingoUI.mk_tile (BingoUI.text_content w)
                (cell (BingoBoard.marked (BingoUI.board s)) r c)
                (BingoUI.is_winning_tile s r c && BingoUI.bingo_active s))
    <$> tile_at s r c.
Proof.
  intros Hr Hc. unfold tile_at, redisplay, displayed.
  destruct s as [b tw act wl en log]. simpl.
  rewrite list_lookup_imap. destruct (tw !! Z.to_nat r) as [row|]; [|done]. simpl.
  rewrite list_lookup_imap. destruct (row !! Z.to_nat c) as [w|]; [|done]. simpl.
  unfold display_tile. rewrite !Z2Nat.id by done. done.
Qed.

Lemma dismiss_bingo_eq (s : BingoUI.t) :
  BingoUI.dismiss_bingo s
  = (if BingoUI.continue_button_enabled s
     then BingoUI.mk (BingoUI.board s) (BingoUI.tile_widgets s) (BingoUI.bingo_active s)
            (BingoUI.winning_lines s) false
            (((BingoUI.tk_log s ++ [BingoUI.BannerPlaceForget])
              ++ [BingoUI.ConfettiPlaceForget]) ++ [BingoUI.UpdateContinueButton])
     else s, Returns tt).
Proof. destruct s as [b tw act wl [|] log]; reflexivity. Qed.

Lemma check_and_show_bingo_checked (s : BingoUI.t) (lines : list BingoBoard.line) :
  grid5 (BingoBoard.marked (BingoUI.board s)) ->
  grid5 (BingoUI.tile_widgets s) ->
  BingoBoard.check_bingo (BingoUI.board s) = Returns lines ->
  BingoUI.check_and_show_bingo s = (checked s lines, Returns tt).
Proof.
  intros Hm Ht Hcb. unfold checked.
  destruct s as [b tw act wl en log]. simpl in *.
  unfold BingoUI.check_and_show_bingo.
  unfold_M.
  simpl. rewrite Hcb. simpl.
  destruct lines as [|l lines], act; simpl.
  - change (BingoUI.set_winning_lines [] _) with (BingoUI.mk b tw true [] en log).
    rewrite dismiss_bingo_eq. done.
  - done.
  - done.
  - match goal with
    | |- context [BingoUI.update_display ?s1] =>
        rewrite (update_display_displayed s1) by done
    end.
    done.
Qed.

Lemma on_tile_click_eq (s : BingoUI.t) (row col : Z) :
  grid5 (BingoBoard.marked (BingoUI.board s)) ->
  grid5 (BingoUI.tile_widgets s) ->
  BingoUI.on_tile_click row col s
  = match BingoBoard.toggle_mark row col (BingoUI.board s) with
    | (b, Returns _) =>
        let sd := redisplay (BingoUI.set_board b s) in
        (checked sd (filter (fun l => complete (BingoBoard.marked b) l) all_lines),
         Returns tt)
    | (_, Raises e) => (s, Raises e)
    end.
Proof.
  intros Hm Ht. unfold BingoUI.on_tile_click.
  unfold_M.
  destruct (BingoBoard.toggle_mark row col (BingoUI.board s)) as [b [[]|e]] eqn:Htm.
  - assert (grid5 (BingoBoard.marked b)) as Hm'.
    { destruct (toggle_mark_cases _ row col Hm)
        as [[_ Heq]|[[_ Heq]|(kr & kc & rw & v & _ & _ & _ & Hrw & _ & Heq)]];
        rewrite Heq in Htm; injection Htm as <-; try done.
      simpl. apply grid5_insert; [done|]. rewrite length_insert. by eapply grid5_row. }
    rewrite (update_display_displayed (BingoUI.set_board b s)) by (by destruct s).
    cbv zeta.
    apply check_and_show_bingo_checked.
    + by destruct s.
    + apply displayed_grid5. by destruct s.
    + rewrite <- (check_bingo_filter b Hm'). by destruct s.
  - apply toggle_mark_raises in Htm as ->; [|done].
    by rewrite set_board_same.
Qed.

Lemma grid5_tile_at (s : BingoUI.t) (r c : Z) :
  grid5 (BingoUI.tile_widgets s) -> 0 <= r < 5 -> 0 <= c < 5 ->
  exists w, tile_at s r c = Some w.
Proof.
  intros Hg Hr Hc. unfold tile_at.
  destruct (lookup_lt_is_Some_2 (BingoUI.tile_widgets s) (Z.to_nat r)) as [row Hrow].
  { destruct Hg as [-> _]. lia. }
  rewrite Hrow. simpl. apply lookup_lt_is_Some_2.
  rewrite (grid5_row _ _ _ Hg Hrow). lia.
Qed.

(** X6. In a session whose mark grid and tile grid are 5x5, [update_display]
    returns and changes nothing but the tiles; every tile keeps its text, its
    marked flag becomes the flag of its cell on the board, and its winning
    flag becomes [is_winning_tile(row, col) and bingo_active]. *)
Theorem update_display_shows_model (s : BingoUI.t) :
  grid5 (BingoBoard.marked (BingoUI.board s)) ->
  grid5 (BingoUI.tile_widgets s) ->
  exists s',
    BingoUI.update_display s = (s', Returns tt)
    /\ s' = BingoUI.set_tile_widgets (BingoUI.tile_widgets s') s
    /\ grid5 (BingoUI.tile_widgets s')
    /\ forall r c, 0 <= r < 5 -> 0 <= c < 5 ->
         exists w,
           tile_at s r c = Some w
           /\ tile_at s' r c
              = Some (BingoUI.mk_tile (BingoUI.text_content w)
                        (cell (BingoBoard.marked (BingoUI.board s)) r c)
                        (BingoUI.is_winning_tile s r c && BingoUI.bingo_active s)).
Proof.
  intros Hm Ht. exists (redisplay s).
  split; [by apply update_display_displayed|].
  split; [by destruct s|].
  split; [by apply displayed_grid5|].
  intros r c Hr Hc. destruct (grid5_tile_at s r c Ht Hr Hc) as [w Hw].
  exists w. split; [done|]. rewrite tile_at_redisplay by lia. by rewrite Hw.
Qed.

Lemma update_display_shows_model_witness :
  grid5 (BingoBoard.marked (BingoUI.board (sample_after 4)))
  /\ grid5 (BingoUI.tile_widgets (sample_after 4))
  /\ exists s',
       BingoUI.update_display (sample_after 4) = (s', Returns tt)
       /\ s' = BingoUI.set_tile_widgets (BingoUI.tile_widgets s') (sample_after 4)
       /\ grid5 (BingoUI.tile_widgets s')
       /\ forall r c, 0 <= r < 5 -> 0 <= c < 5 ->
            exists w,
              tile_at (sample_after 4) r c = Some w
              /\ tile_at s' r c
                 = Some (BingoUI.mk_tile (BingoUI.text_content w)
                           (cell (BingoBoard.marked (BingoUI.board (sample_after 4))) r c)
                           (BingoUI.is_winning_tile (sample_after 4) r c
                            && BingoUI.bingo_active (sample_after 4))).
Proof.
  assert (grid5 (BingoBoard.marked (BingoUI.board (sample_after 4)))) as Hm
    by compute_grid5.
  assert (grid5 (BingoUI.tile_widgets (sample_after 4))) as Ht by compute_grid5.
  split; [exact Hm|]. split; [exact Ht|].
  exact (update_display_shows_model (sample_after 4) Hm Ht).
Defined.

Lemma is_winning_tile_lines (s : BingoUI.t) (r c : Z) :
  BingoUI.is_winning_tile s r c = BingoUI.tile_on_lines (BingoUI.winning_lines s) r c.
Proof. unfold BingoUI.is_winning_tile. by destruct (BingoUI.winning_lines s). Qed.

Lemma toggle_mark_returns (self : BingoBoard.t) (row col : Z) :
  grid5 (BingoBoard.marked self) -> -5 <= row < 5 -> -5 <= col < 5 ->
  exists b, BingoBoard.toggle_mark row col self = (b, Returns tt)
            /\ grid5 (BingoBoard.marked b)
            /\ BingoBoard.board b = BingoBoard.board self
            /\ BingoBoard.buzzwords b = BingoBoard.buzzwords self.
Proof.
  intros Hm Hrow Hcol.
  destruct (toggle_mark_cases self row col Hm)
    as [[_ Heq]|[[Hout _]|(kr & kc & rw & v & _ & _ & _ & Hrw & _ & Heq)]];
    [|tauto|]; rewrite Heq; eexists; (split; [reflexivity|]); [done|].
  split; [|done]. simpl.
  apply grid5_insert; [done|]. rewrite length_insert. by eapply grid5_row.
Qed.

(** ** Tile clicks *)

Lemma tile_at_displayed (s' sd : BingoUI.t) (r c : Z) :
  BingoUI.tile_widgets s' = displayed sd -> 0 <= r -> 0 <= c ->
  tile_at s' r c
  = (fun w => BingoUI.mk_tile (BingoUI.text_content w)
                (cell (BingoBoard.marked (BingoUI.board sd)) r c)
                (BingoUI.is_winning_tile sd r c && BingoUI.bingo_active sd))
    <$> tile_at sd r c.
Proof.
  intros Heq Hr Hc. rewrite <- tile_at_redisplay by done.
  unfold tile_at. by rewrite Heq.
Qed.

(** common description of the tiles after a returning tile click *)
Lemma on_tile_click_tiles (s : BingoUI.t) (row col : Z) :
  session_inv s -> -5 <= row < 5 -> -5 <= col < 5 ->
  exists s',
    BingoUI.on_tile_click row col s = (s', Returns tt)
    /\ BingoUI.board s' = fst (BingoBoard.toggle_mark row col (BingoUI.board s))
    /\ BingoBoard.check_bingo (BingoUI.board s') = Returns (BingoUI.winning_lines s')
    /\ grid5 (BingoUI.tile_widgets s')
    /\ forall r c, 0 <= r < 5 -> 0 <= c < 5 ->
         exists w,
           tile_at s r c = Some w
           /\ tile_at s' r c
              = Some (BingoUI.mk_tile (BingoUI.text_content w)
                        (cell (BingoBoard.marked (BingoUI.board s')) r c)
                        (if BingoUI.bingo_active s
                         then BingoUI.is_winning_tile s r c
                         else BingoUI.is_winning_tile s' r c)).
Proof.
  intros ([_ Hm] & Ht & Hcb & Hidle) Hrow Hcol.
  rewrite on_tile_click_eq by done.
  destruct (toggle_mark_returns _ row col Hm Hrow Hcol) as (b & -> & Hm' & _ & _).
  cbv zeta. eexists. split; [reflexivity|].
  pose proof (check_bingo_filter b Hm') as Hcb'.
  revert Hcb'. generalize (filter (fun l => complete (BingoBoard.marked b) l) all_lines).
  intros lines Hcb'.
  destruct s as [b0 tw act wl en log]. simpl in *.
  pose proof (displayed_grid5 (BingoUI.mk b tw act wl en log) Ht) as Hgd.
  unfold checked. simpl.
  destruct lines as [|l ls], act; simpl.
  - rewrite dismiss_bingo_eq.
    destruct en; simpl;
      (split; [done|]; split; [done|]; split; [exact Hgd|]; intros r c Hr Hc;
       match goal with
       | |- context [tile_at ?s0 r c = Some _ /\ _] =>
           destruct (grid5_tile_at s0 r c Ht Hr Hc) as [w Hw]
       end;
       exists w; split; [done|];
       match goal with
       | Hg : grid5 (displayed ?sd) |- _ =>
           rewrite (tile_at_displayed _ sd) by first [lia | reflexivity]
       end;
       unfold tile_at in *; simpl in *; rewrite Hw; simpl; by rewrite andb_true_r).
  - split; [done|]. split; [done|]. split; [exact Hgd|].
    intros r c Hr Hc.
    destruct (grid5_tile_at (BingoUI.mk b0 tw false wl en log) r c Ht Hr Hc) as [w Hw].
    exists w. split; [done|].
    rewrite (tile_at_displayed _ (BingoUI.mk b tw false wl en log)) by first [lia | reflexivity].
    unfold tile_at in *. simpl in *. rewrite Hw. simpl. by rewrite andb_false_r.
  - split; [done|]. split; [done|]. split; [exact Hgd|].
    intros r c Hr Hc.
    destruct (grid5_tile_at (BingoUI.mk b0 tw true wl en log) r c Ht Hr Hc) as [w Hw].
    exists w. split; [done|].
    rewrite (tile_at_displayed _ (BingoUI.mk b tw true wl en log)) by first [lia | reflexivity].
    unfold tile_at in *. simpl in *. rewrite Hw. simpl. by rewrite andb_true_r.
  - split; [done|]. split; [done|].
    split.
    { by apply (displayed_grid5 (celebrating b (l :: ls)
               (redisplay (BingoUI.mk b tw false wl en log)))). }
    intros r c Hr Hc.
    destruct (grid5_tile_at (BingoUI.mk b0 tw false wl en log) r c Ht Hr Hc) as [w Hw].
    exists w. split; [done|].
    rewrite (tile_at_displayed _ (celebrating b (l :: ls)
               (redisplay (BingoUI.mk b tw false wl en log)))) by first [lia | reflexivity].
    rewrite (tile_at_displayed _ (BingoUI.mk b tw false wl en log)) by first [lia | reflexivity].
    unfold tile_at in *. simpl in *. rewrite Hw. simpl. by rewrite andb_true_r.
Qed.

Lemma tile_on_lines_cons (l : BingoBoard.line) (ls : list BingoBoard.line) (r c : Z) :
  BingoUI.tile_on_lines (l :: ls) r c
  = BingoUI.tile_on_lines [l] r c || BingoUI.tile_on_lines ls r c.
Proof.
  destruct l as [ty i]. simpl.
  repeat match goal with
  | |- context [if ?b then _ else _] => destruct b eqn:?; simpl; try done
  end.
Qed.

Lemma is_winning_tile_iff (s : BingoUI.t) (r c : Z) :
  Forall (fun l => l ∈ all_lines) (BingoUI.winning_lines s) ->
  0 <= r < 5 -> 0 <= c < 5 ->
  BingoUI.is_winning_tile s r c = true
  <-> exists l, l ∈ BingoUI.winning_lines s /\ (r, c) ∈ line_cells l.
Proof.
  intros Hsub Hr Hc. rewrite Forall_forall in Hsub. rewrite is_winning_tile_lines.
  induction (BingoUI.winning_lines s) as [|l ls IH].
  - simpl. split; [done|]. intros (l & Hl & _). by apply elem_of_nil in Hl.
  - rewrite tile_on_lines_cons, orb_true_iff.
    rewrite <- (line_cells_tile_on_lines l r c) by (done || apply Hsub, elem_of_cons; by left).
    rewrite bool_decide_eq_true, IH.
    2:{ intros l' Hl'. apply Hsub, elem_of_cons. by right. }
    split.
    + intros [H|(l' & Hl' & H)].
      * exists l. split; [apply elem_of_cons; by left|done].
      * exists l'. split; [apply elem_of_cons; by right|done].
    + intros (l' & Hl' & H). apply elem_of_cons in Hl' as [->|Hl']; eauto.
Qed.

(** X5. When the winning lines of the session are descriptors among the 12
    of [all_lines] (as the results of [check_bingo] are), [is_winning_tile]
    is true of a tile in range exactly when the tile lies on one of the
    winning lines. *)
Theorem is_winning_tile_on_a_winning_line (s : BingoUI.t) (r c : Z) :
  Forall (fun l => l ∈ all_lines) (BingoUI.winning_lines s) ->
  0 <= r < 5 -> 0 <= c < 5 ->
  BingoUI.is_winning_tile s r c = true
  <-> exists l, l ∈ BingoUI.winning_lines s /\ (r, c) ∈ line_cells l.
Proof.
  intros Hsub Hr Hc.
  split; intros H; by apply (is_winning_tile_iff s r c Hsub Hr Hc).
Qed.

Lemma is_winning_tile_on_a_winning_line_witness :
  Forall (fun l => l ∈ all_lines) (BingoUI.winning_lines (sample_after 9))
  /\ 0 <= 4 < 5 /\ 0 <= 0 < 5
  /\ (BingoUI.is_winning_tile (sample_after 9) 4 0 = true
      <-> exists l, l ∈ BingoUI.winning_lines (sample_after 9) /\ (4, 0) ∈ line_cells l).
Proof.
  assert (Forall (fun l => l ∈ all_lines) (BingoUI.winning_lines (sample_after 9))) as Hsub
    by (apply (bool_decide_unpack _); vm_compute; exact I).
  assert (0 <= 4 < 5) as H4 by lia.
  assert (0 <= 0 < 5) as H0 by lia.
  split; [exact Hsub|]. split; [exact H4|]. split; [exact H0|].
  exact (is_winning_tile_on_a_winning_line (sample_after 9) 4 0 Hsub H4 H0).
Defined.

(** X7. In a session that satisfies the invariant, a click on a tile with
    coordinates in [-5 .. 4] returns, and afterwards every tile has the text
    it had and shows the mark of its cell on the board as the click left
    it. *)
Theorem tile_click_shows_marks (s : BingoUI.t) (row col : Z) :
  session_inv s -> -5 <= row < 5 -> -5 <= col < 5 ->
  exists s',
    BingoUI.on_tile_click row col s = (s', Returns tt)
    /\ forall r c, 0 <= r < 5 -> 0 <= c < 5 ->
         exists w w',
           tile_at s r c = Some w /\ tile_at s' r c = Some w'
           /\ BingoUI.text_content w' = BingoUI.text_content w
           /\ BingoUI.is_marked w' = cell (BingoBoard.marked (BingoUI.board s')) r c.
Proof.
  intros Hinv Hrow Hcol.
  destruct (on_tile_click_tiles s row col Hinv Hrow Hcol) as (s' & Heq & _ & _ & _ & Ht).
  exists s'. split; [done|]. intros r c Hr Hc.
  destruct (Ht r c Hr Hc) as (w & Hw & Hw'). eauto 10.
Qed.

Lemma tile_click_shows_marks_witness :
  session_inv (sample_after 3)
  /\ -5 <= 4 < 5
  /\ exists s',
       BingoUI.on_tile_click 4 4 (sample_after 3) = (s', Returns tt)
       /\ forall r c, 0 <= r < 5 -> 0 <= c < 5 ->
            exists w w',
              tile_at (sample_after 3) r c = Some w /\ tile_at s' r c = Some w'
              /\ BingoUI.text_content w' = BingoUI.text_content w
              /\ BingoUI.is_marked w' = cell (BingoBoard.marked (BingoUI.board s')) r c.
Proof.
  assert (session_inv (sample_after 3)) as Hinv by compute_session_inv.
  assert (-5 <= 4 < 5) as H4 by lia.
  split; [exact Hinv|]. split; [exact H4|].
  exact (tile_click_shows_marks (sample_after 3) 4 4 Hinv H4 H4).
Defined.

(** X8. Once a win has been seen ([bingo_active] is set), a click on a tile
    with coordinates in [-5 .. 4] returns and leaves [winning_lines] equal to
    what [check_bingo] returns on the new board, but the winning flag of every
    tile is computed from the winning lines as they were before the click:
    [update_display] runs before [check_and_show_bingo] and is not run again
    after it. *)
Theorem highlight_lags_after_win (s : BingoUI.t) (row col : Z) :
  session_inv s -> BingoUI.bingo_active s = true ->
  -5 <= row < 5 -> -5 <= col < 5 ->
  exists s',
    BingoUI.on_tile_click row col s = (s', Returns tt)
    /\ BingoBoard.check_bingo (BingoUI.board s') = Returns (BingoUI.winning_lines s')
    /\ forall r c, 0 <= r < 5 -> 0 <= c < 5 ->
         exists w',
           tile_at s' r c = Some w'
           /\ BingoUI.is_winning w' = BingoUI.tile_on_lines (BingoUI.winning_lines s) r c.
Proof.
  intros Hinv Hact Hrow Hcol.
  destruct (on_tile_click_tiles s row col Hinv Hrow Hcol) as (s' & Heq & _ & Hcb & _ & Ht).
  exists s'. split; [done|]. split; [done|]. intros r c Hr Hc.
  destruct (Ht r c Hr Hc) as (w & Hw & Hw'). rewrite Hact in Hw'.
  eexists. split; [exact Hw'|]. simpl. apply is_winning_tile_lines.
Qed.

Lemma highlight_lags_after_win_witness :
  session_inv (sample_after 8)
  /\ BingoUI.bingo_active (sample_after 8) = true
  /\ -5 <= 4 < 5 /\ -5 <= 0 < 5
  /\ exists s',
       BingoUI.on_tile_click 4 0 (sample_after 8) = (s', Returns tt)
       /\ BingoBoard.check_bingo (BingoUI.board s') = Returns (BingoUI.winning_lines s')
       /\ forall r c, 0 <= r < 5 -> 0 <= c < 5 ->
            exists w',
              tile_at s' r c = Some w'
              /\ BingoUI.is_winning w'
                 = BingoUI.tile_on_lines (BingoUI.winning_lines (sample_after 8)) r c.
Proof.
  assert (session_inv (sample_after 8)) as Hinv by compute_session_inv.
  assert (BingoUI.bingo_active (sample_after 8) = true) as Hact by (vm_compute; reflexivity).
  assert (-5 <= 4 < 5) as H4 by lia.
  assert (-5 <= 0 < 5) as H0 by lia.
  split; [exact Hinv|]. split; [exact Hact|]. split; [exact H4|]. split; [exact H0|].
  exact (highlight_lags_after_win (sample_after 8) 4 0 Hinv Hact H4 H0).
Defined.

(** The second diagonal is complete after the last click of
    [diagonal_clicks] and is among the winning lines, and its tile at row 4,
    column 0 is not highlighted. *)
Example highlight_lags_on_second_diagonal :
  BingoUI.winning_lines (sample_after 9) = [("diag", 0); ("diag", 1)]%string
  /\ BingoUI.is_winning_tile (sample_after 9) 4 0 = true
  /\ (BingoUI.is_winning <$> tile_at (sample_after 9) 4 0) = Some false.
Proof. repeat split; vm_compute; reflexivity. Qed.

(** X9. While no win has been seen ([bingo_active] is clear), a click on a
    tile with coordinates in [-5 .. 4] returns and leaves a tile highlighted
    exactly when it lies on one of the lines that [check_bingo] reports on
    the new board; so the click that launches the celebration highlights the
    tiles of the complete lines, and a click without a win highlights none. *)
Theorem first_win_highlights_complete_lines (s : BingoUI.t) (row col : Z) :
  session_inv s -> BingoUI.bingo_active s = false ->
  -5 <= row < 5 -> -5 <= col < 5 ->
  exists s',
    BingoUI.on_tile_click row col s = (s', Returns tt)
    /\ BingoBoard.check_bingo (BingoUI.board s') = Returns (BingoUI.winning_lines s')
    /\ forall r c, 0 <= r < 5 -> 0 <= c < 5 ->
         exists w',
           tile_at s' r c = Some w'
           /\ (BingoUI.is_winning w' = true
               <-> exists l, l ∈ BingoUI.winning_lines s' /\ (r, c) ∈ line_cells l).
Proof.
  intros Hinv Hact Hrow Hcol.
  destruct (on_tile_click_tiles s row col Hinv Hrow Hcol) as (s' & Heq & Hbd & Hcb & Hg & Ht).
  exists s'. split; [done|]. split; [done|]. intros r c Hr Hc.
  destruct (Ht r c Hr Hc) as (w & Hw & Hw'). rewrite Hact in Hw'.
  eexists. split; [exact Hw'|]. simpl.
  apply is_winning_tile_iff; [|done|done].
  apply Forall_forall. intros l Hl.
  assert (grid5 (BingoBoard.marked (BingoUI.board s'))) as Hm'.
  { pose proof Hinv as ([_ Hm] & _).
    destruct (toggle_mark_returns _ row col Hm Hrow Hcol) as (b & Hb & Hm' & _).
    rewrite Hbd, Hb. done. }
  rewrite (check_bingo_filter _ Hm') in Hcb. injection Hcb as Hcb.
  rewrite <- Hcb in Hl. by apply list_elem_of_filter in Hl as [_ Hl].
Qed.

Lemma first_win_highlights_complete_lines_witness :
  session_inv (sample_after 3)
  /\ BingoUI.bingo_active (sample_after 3) = false
  /\ -5 <= 4 < 5
  /\ exists s',
       BingoUI.on_tile_click 4 4 (sample_after 3) = (s', Returns tt)
       /\ BingoBoard.check_bingo (BingoUI.board s') = Returns (BingoUI.winning_lines s')
       /\ forall r c, 0 <= r < 5 -> 0 <= c < 5 ->
            exists w',
              tile_at s' r c = Some w'
              /\ (BingoUI.is_winning w' = true
                  <-> exists l, l ∈ BingoUI.winning_lines s' /\ (r, c) ∈ line_cells l).
Proof.
  assert (session_inv (sample_after 3)) as Hinv by compute_session_inv.
  assert (BingoUI.bingo_active (sample_after 3) = false) as Hact by (vm_compute; reflexivity).
  assert (-5 <= 4 < 5) as H4 by lia.
  split; [exact Hinv|]. split; [exact Hact|]. split; [exact H4|].
  exact (first_win_highlights_complete_lines (sample_after 3) 4 4 Hinv Hact H4 H4).
Defined.

Lemma checked_board (s : BingoUI.t) (lines : list BingoBoard.line) :
  BingoUI.board (checked s lines) = BingoUI.board s.
Proof.
  unfold checked. rewrite dismiss_bingo_eq.
  destruct s as [b tw act wl en log], lines, act, en; reflexivity.
Qed.

(** X10. Once a win has been seen, a click on a tile (coordinates in
    [-5 .. 4]) after which [check_bingo] finds no line, as when a tile of the
    only winning line is unmarked, returns, empties [winning_lines] and takes
    the banner down through [dismiss_bingo]: the continue button is disabled
    and the phase is [Acknowledged].  [bingo_active] stays set and no
    celebration is launched. *)
Theorem lost_win_dismisses_banner (s : BingoUI.t) (row col : Z) :
  session_inv s -> BingoUI.bingo_active s = true ->
  -5 <= row < 5 -> -5 <= col < 5 ->
  BingoBoard.check_bingo (fst (BingoBoard.toggle_mark row col (BingoUI.board s)))
  = Returns [] ->
  exists s',
    BingoUI.on_tile_click row col s = (s', Returns tt)
    /\ BingoUI.winning_lines s' = []
    /\ BingoUI.bingo_active s' = true
    /\ BingoUI.continue_button_enabled s' = false
    /\ BingoUI.session_phase s' = BingoUI.Acknowledged
    /\ BingoUI.celebrations s' = BingoUI.celebrations s.
Proof.
  intros ([_ Hm] & Ht & _) Hact Hrow Hcol Hnone.
  rewrite on_tile_click_eq by done.
  destruct (toggle_mark_returns _ row col Hm Hrow Hcol) as (b & Hb & Hm' & _ & _).
  rewrite Hb in *. simpl in Hnone. cbv zeta.
  rewrite (check_bingo_filter b Hm') in Hnone. injection Hnone as ->.
  eexists. split; [reflexivity|].
  destruct s as [b0 tw act wl en log]. simpl in Hact. subst act.
  unfold checked. simpl. rewrite dismiss_bingo_eq. simpl.
  unfold BingoUI.session_phase, BingoUI.celebrations.
  destruct en; simpl; repeat split; try done.
  rewrite !filter_app, !length_app. simpl. lia.
Qed.

Lemma lost_win_dismisses_banner_witness :
  session_inv (sample_after 4)
  /\ BingoUI.bingo_active (sample_after 4) = true
  /\ -5 <= 0 < 5
  /\ BingoBoard.check_bingo
       (fst (BingoBoard.toggle_mark 0 0 (BingoUI.board (sample_after 4)))) = Returns []
  /\ BingoUI.session_phase (sample_after 4) = BingoUI.Celebrating
  /\ exists s',
       BingoUI.on_tile_click 0 0 (sample_after 4) = (s', Returns tt)
       /\ BingoUI.winning_lines s' = []
       /\ BingoUI.bingo_active s' = true
       /\ BingoUI.continue_button_enabled s' = false
       /\ BingoUI.session_phase s' = BingoUI.Acknowledged
       /\ BingoUI.celebrations s' = BingoUI.celebrations (sample_after 4).
Proof.
  assert (session_inv (sample_after 4)) as Hinv by compute_session_inv.
  assert (BingoUI.bingo_active (sample_after 4) = true) as Hact by (vm_compute; reflexivity).
  assert (-5 <= 0 < 5) as H0 by lia.
  assert (BingoBoard.check_bingo
            (fst (BingoBoard.toggle_mark 0 0 (BingoUI.board (sample_after 4)))) = Returns [])
    as Hnone by (vm_compute; reflexivity).
  split; [exact Hinv|]. split; [exact Hact|]. split; [exact H0|]. split; [exact Hnone|].
  split; [vm_compute; reflexivity|].
  exact (lost_win_dismisses_banner (sample_after 4) 0 0 Hinv Hact H0 H0 Hnone).
Defined.

(** X11. In a session whose mark grid and tile grid are 5x5, a click with
    [row] or [col] outside [-5 .. 4] raises [IndexError] in [toggle_mark], so
    neither [update_display] nor [check_and_show_bingo] runs and the session
    is left exactly as it was. *)
Theorem tile_click_out_of_range (s : BingoUI.t) (row col : Z) :
  grid5 (BingoBoard.marked (BingoUI.board s)) ->
  grid5 (BingoUI.tile_widgets s) ->
  ~ (-5 <= row < 5 /\ -5 <= col < 5) ->
  BingoUI.on_tile_click row col s = (s, Raises IndexError).
Proof.
  intros Hm Ht Hout. rewrite on_tile_click_eq by done.
  destruct (toggle_mark_cases _ row col Hm)
    as [[Heq _]|[[_ ->]|(kr & kc & r & b & _ & Hkr & Hkc & _)]].
  - exfalso. apply Hout. injection Heq as -> ->. lia.
  - done.
  - exfalso. apply Hout.
    apply norm_index_Returns_range in Hkr. apply norm_index_Returns_range in Hkc. lia.
Qed.

Lemma tile_click_out_of_range_witness :
  grid5 (BingoBoard.marked (BingoUI.board sample_session))
  /\ grid5 (BingoUI.tile_widgets sample_session)
  /\ ~ (-5 <= 5 < 5 /\ -5 <= 0 < 5)
  /\ BingoUI.on_tile_click 5 0 sample_session = (sample_session, Raises IndexError).
Proof.
  assert (grid5 (BingoBoard.marked (BingoUI.board sample_session))) as Hm by compute_grid5.
  assert (grid5 (BingoUI.tile_widgets sample_session)) as Ht by compute_grid5.
  assert (~ (-5 <= 5 < 5 /\ -5 <= 0 < 5)) as Hout by lia.
  split; [exact Hm|]. split; [exact Ht|]. split; [exact Hout|].
  exact (tile_click_out_of_range sample_session 5 0 Hm Ht Hout).
Defined.

(** ** Runs of clicks *)

Lemma handle_frame (s : BingoUI.t) (c : BingoUI.click) :
  session_inv s ->
  BingoBoard.board (BingoUI.board (fst (BingoUI.handle c s)))
  = BingoBoard.board (BingoUI.board s)
  /\ BingoBoard.buzzwords (BingoUI.board (fst (BingoUI.handle c s)))
     = BingoBoard.buzzwords (BingoUI.board s).
Proof.
  intros (Hv & Ht & _). destruct c as [row col|]; simpl.
  - rewrite on_tile_click_eq by (done || by destruct Hv).
    destruct (BingoBoard.toggle_mark row col (BingoUI.board s)) as [b [[]|e]] eqn:Htm;
      [|done].
    destruct (toggle_mark_valid _ _ _ _ _ Hv Htm) as (_ & Hb & Hp).
    cbv zeta. simpl. rewrite checked_board. by destruct s.
  - rewrite dismiss_bingo_eq. simpl. by destruct (BingoUI.continue_button_enabled s).
Qed.

Lemma run_frame (s : BingoUI.t) (cs : list BingoUI.click) :
  session_inv s ->
  session_inv (BingoUI.run cs s)
  /\ BingoBoard.board (BingoUI.board (BingoUI.run cs s))
     = BingoBoard.board (BingoUI.board s)
  /\ BingoBoard.buzzwords (BingoUI.board (BingoUI.run cs s))
     = BingoBoard.buzzwords (BingoUI.board s).
Proof.
  revert s. induction cs as [|c cs IH]; intros s Hinv; [done|].
  cbn [BingoUI.run].
  destruct (handle_frame s c Hinv) as [Hb Hp].
  destruct (handle_effect s c Hinv) as [Hinv' _].
  destruct (IH _ Hinv') as (H1 & H2 & H3).
  split; [done|]. split; congruence.
Qed.

(** X12. Clicks on tiles (with any coordinates) and on the continue button
    never change the phrase grid of the board nor the word pool, and they keep
    the invariant of the session: both grids stay 5x5 and [winning_lines]
    stays equal to what [check_bingo] returns. *)
Theorem clicks_keep_phrases (s : BingoUI.t) (cs : list BingoUI.click) :
  session_inv s ->
  session_inv (BingoUI.run cs s)
  /\ BingoBoard.board (BingoUI.board (BingoUI.run cs s))
     = BingoBoard.board (BingoUI.board s)
  /\ BingoBoard.buzzwords (BingoUI.board (BingoUI.run cs s))
     = BingoBoard.buzzwords (BingoUI.board s).
Proof.
  intros Hinv. destruct (run_frame s cs Hinv) as (H1 & H2 & H3).
  split; [exact H1|]. split; [exact H2|exact H3].
Qed.

Lemma clicks_keep_phrases_witness :
  session_inv sample_session
  /\ session_inv (BingoUI.run diagonal_clicks sample_session)
  /\ BingoBoard.board (BingoUI.board (BingoUI.run diagonal_clicks sample_session))
     = BingoBoard.board (BingoUI.board sample_session)
  /\ BingoBoard.buzzwords (BingoUI.board (BingoUI.run diagonal_clicks sample_session))
     = BingoBoard.buzzwords (BingoUI.board sample_session).
Proof.
  assert (session_inv sample_session) as Hinv by compute_session_inv.
  split; [exact Hinv|].
  exact (clicks_keep_phrases sample_session diagonal_clicks Hinv).
Defined.

Lemma ui_init_board (rnd : nat -> nat) (pool : list string) (s : BingoUI.t) :
  BingoUI.init rnd pool = Returns s ->
  (24 <= length pool)%nat
  /\ fresh_session s
  /\ BingoBoard.buzzwords (BingoUI.board s) = pool.
Proof.
  intros Hinit.
  destruct (decide (24 <= length pool)%nat) as [Hlen|Hlen].
  - split; [done|].
    destruct (ui_init_fresh rnd pool Hlen) as (s1 & Hs1 & Hf).
    rewrite Hs1 in Hinit. injection Hinit as <-. split; [done|].
    revert Hs1. unfold BingoUI.init, BingoBoard.init.
    pose proof (generate_board_long rnd (BingoBoard.mk pool [] []) Hlen) as Hgen.
    cbn [BingoBoard.buzzwords] in Hgen. rewrite Hgen.
    unfold BingoUI.setup_ui, BingoUI.update_continue_button.
    unfold_M.
    run_tiles. simpl. run_display. intros [= <-]. done.
  - exfalso. revert Hinit. unfold BingoUI.init, BingoBoard.init.
    rewrite generate_board_short by (simpl; lia). done.
Qed.

(** X13. When the constructor of the window has returned a session, then
    after every sequence of clicks [new_board] returns as well, for every
    sequence of draws: the pool is never changed, so the [ValueError] of a
    short pool can only arise at startup.  The session it leaves is a fresh
    one on the same pool. *)
Theorem new_board_never_fails_in_session (rnd rnd' : nat -> nat) (pool : list string)
    (s0 : BingoUI.t) (cs : list BingoUI.click) :
  BingoUI.init rnd pool = Returns s0 ->
  exists s',
    BingoUI.new_board rnd' (BingoUI.run cs s0) = (s', Returns tt)
    /\ fresh_session s'
    /\ BingoBoard.buzzwords (BingoUI.board s') = pool.
Proof.
  intros Hinit. destruct (ui_init_board rnd pool s0 Hinit) as (Hlen & Hf & Hp).
  destruct (run_frame s0 cs (fresh_session_inv s0 Hf)) as (_ & _ & Hp').
  destruct (ui_new_board_fresh rnd' (BingoUI.run cs s0)) as (s' & Heq & Hb & Hf').
  { rewrite Hp', Hp. done. }
  exists s'. split; [done|]. split; [done|].
  rewrite Hb, generate_board_long by (rewrite Hp', Hp; done). simpl. congruence.
Qed.

Lemma new_board_never_fails_in_session_witness :
  BingoUI.init sample_rnd main_buzzwords = Returns sample_session
  /\ exists s',
       BingoUI.new_board (fun i => (5 * i + 1)%nat)
         (BingoUI.run diagonal_clicks sample_session) = (s', Returns tt)
       /\ fresh_session s'
       /\ BingoBoard.buzzwords (BingoUI.board s') = main_buzzwords.
Proof.
  assert (BingoUI.init sample_rnd main_buzzwords = Returns sample_session) as Hinit
    by (vm_compute; reflexivity).
  split; [exact Hinit|].
  exact (new_board_never_fails_in_session sample_rnd (fun i => (5 * i + 1)%nat)
           main_buzzwords sample_session diagonal_clicks Hinit).
Defined.

(** X14. From a fresh session and after every sequence of clicks, the
    handler [reset_marks] returns and leaves a fresh session whose board is
    exactly the board of the fresh session the clicks started from: same
    pool, same phrases, only the center marked. *)
Theorem reset_marks_restores_fresh_board (s0 : BingoUI.t) (cs : list BingoUI.click) :
  fresh_session s0 ->
  exists s',
    BingoUI.reset_marks (BingoUI.run cs s0) = (s', Returns tt)
    /\ BingoUI.board s' = BingoUI.board s0
    /\ fresh_session s'.
Proof.
  intros Hf.
  destruct (run_frame s0 cs (fresh_session_inv s0 Hf)) as (Hinv & Hb & Hp).
  destruct (ui_reset_marks_fresh (BingoUI.run cs s0)) as (s' & Heq & Hbd & Hf').
  { destruct Hinv as ([Hg _] & _). done. }
  { by destruct Hinv as (_ & Ht & _). }
  exists s'. split; [done|]. split; [|done].
  rewrite Hbd. destruct Hf as (_ & Hm & _).
  destruct (BingoUI.board (BingoUI.run cs s0)), (BingoUI.board s0).
  unfold BingoBoard.set_marked. simpl in *. congruence.
Qed.

Lemma reset_marks_restores_fresh_board_witness :
  fresh_session sample_session
  /\ exists s',
       BingoUI.reset_marks (BingoUI.run diagonal_clicks sample_session) = (s', Returns tt)
       /\ BingoUI.board s' = BingoUI.board sample_session
       /\ fresh_session s'.
Proof.
  assert (fresh_session sample_session) as Hf by compute_fresh_session.
  split; [exact Hf|].
  exact (reset_marks_restores_fresh_board sample_session diagonal_clicks Hf).
Defined.

(** X15. [dismiss_bingo] always returns and never touches the board, the
    tiles, [bingo_active] or [winning_lines]; it leaves the continue button
    disabled; a second call right after the first changes nothing more; and
    when the continue button is disabled already the call changes nothing at
    all. *)
Theorem dismiss_bingo_idempotent (s : BingoUI.t) :
  exists s1,
    BingoUI.dismiss_bingo s = (s1, Returns tt)
    /\ BingoUI.dismiss_bingo s1 = (s1, Returns tt)
    /\ (BingoUI.continue_button_enabled s = false -> s1 = s)
    /\ BingoUI.board s1 = BingoUI.board s
    /\ BingoUI.tile_widgets s1 = BingoUI.tile_widgets s
    /\ BingoUI.bingo_active s1 = BingoUI.bingo_active s
    /\ BingoUI.winning_lines s1 = BingoUI.winning_lines s
    /\ BingoUI.continue_button_enabled s1 = false.
Proof.
  eexists. split; [apply dismiss_bingo_eq|]. rewrite dismiss_bingo_eq.
  destruct s as [b tw act wl [|] log]; simpl; repeat split; done.
Qed.

Lemma dismiss_bingo_idempotent_witness :
  BingoUI.continue_button_enabled sample_session = false
  /\ BingoUI.dismiss_bingo sample_session = (sample_session, Returns tt).
Proof.
  assert (BingoUI.continue_button_enabled sample_session = false) as Hen
    by (vm_compute; reflexivity).
  split; [exact Hen|].
  destruct (dismiss_bingo_idempotent sample_session) as (s1 & Heq & _ & Hsame & _).
  rewrite Heq. rewrite (Hsame Hen). reflexivity.
Defined.

(** X16. In every session whose pool has at least 24 entries, whatever its
    phase, [new_board] returns; the board is the one [generate_board] builds,
    the winning lines are empty, the phase is [Idle], no celebration is
    launched, and the tile at every position shows the phrase of its cell,
    marked on the center only and not highlighted. *)
Theorem new_board_shows_new_board (rnd : nat -> nat) (s : BingoUI.t) :
  (24 <= length (BingoBoard.buzzwords (BingoUI.board s)))%nat ->
  exists s',
    BingoUI.new_board rnd s = (s', Returns tt)
    /\ BingoUI.board s' = fst (BingoBoard.generate_board rnd (BingoUI.board s))
    /\ BingoUI.winning_lines s' = []
    /\ BingoUI.session_phase s' = BingoUI.Idle
    /\ BingoUI.celebrations s' = BingoUI.celebrations s
    /\ forall r c, 0 <= r < 5 -> 0 <= c < 5 ->
         exists phrase,
           (BingoBoard.board (BingoUI.board s') !! Z.to_nat r
              ≫= fun row => row !! Z.to_nat c) = Some phrase
           /\ tile_at s' r c
              = Some (BingoUI.mk_tile phrase
                        (bool_decide ((r, c) = BingoBoard.free_space_pos)) false).
Proof.
  intros Hlen. destruct s as [b tw act wl en log]. simpl in *.
  rewrite (generate_board_long rnd b Hlen). cbn [fst].
  unfold BingoUI.new_board, BingoUI.update_continue_button.
  unfold_M.
  cbn [BingoUI.board]. rewrite (generate_board_long rnd b Hlen).
  generalize (sample_loop rnd 0 (BingoBoard.buzzwords b) 24). intros sel.
  simpl.
  match goal with
  | |- context [BingoUI.update_display ?s1] =>
      rewrite (update_display_displayed s1)
        by (simpl; first [apply grid5_fresh_marks | (split; [done|repeat constructor])])
  end.
  eexists. split; [reflexivity|]. split; [reflexivity|]. split; [reflexivity|].
  split; [reflexivity|]. split.
  { unfold BingoUI.celebrations. simpl. rewrite !filter_app, !length_app. simpl. lia. }
  intros r c Hr Hc.
  assert (r = 0 \/ r = 1 \/ r = 2 \/ r = 3 \/ r = 4) as Hr' by lia.
  assert (c = 0 \/ c = 1 \/ c = 2 \/ c = 3 \/ c = 4) as Hc' by lia.
  clear Hr Hc.
  destruct Hr' as [->|[->|[->|[->| ->]]]];
    destruct Hc' as [->|[->|[->|[->| ->]]]];
    eexists; (split; [vm_compute; reflexivity|vm_compute; reflexivity]).
Qed.

Lemma new_board_shows_new_board_witness :
  (24 <= length (BingoBoard.buzzwords (BingoUI.board (sample_after 4))))%nat
  /\ BingoUI.session_phase (sample_after 4) = BingoUI.Celebrating
  /\ exists s',
       BingoUI.new_board sample_rnd (sample_after 4) = (s', Returns tt)
       /\ BingoUI.board s'
          = fst (BingoBoard.generate_board sample_rnd (BingoUI.board (sample_after 4)))
       /\ BingoUI.winning_lines s' = []
       /\ BingoUI.session_phase s' = BingoUI.Idle
       /\ BingoUI.celebrations s' = BingoUI.celebrations (sample_after 4)
       /\ forall r c, 0 <= r < 5 -> 0 <= c < 5 ->
            exists phrase,
              (BingoBoard.board (BingoUI.board s') !! Z.to_nat r
                 ≫= fun row => row !! Z.to_nat c) = Some phrase
              /\ tile_at s' r c
                 = Some (BingoUI.mk_tile phrase
                           (bool_decide ((r, c) = BingoBoard.free_space_pos)) false).
Proof.
  assert (24 <= length (BingoBoard.buzzwords (BingoUI.board (sample_after 4))))%nat
    as Hlen by (vm_compute; lia).
  split; [exact Hlen|]. split; [vm_compute; reflexivity|].
  exact (new_board_shows_new_board sample_rnd (sample_after 4) Hlen).
Defined.

(** ** Counting marks *)

Lemma complete_needs_five (m : list (list bool)) (l : BingoBoard.line) :
  grid5 m -> l ∈ all_lines -> complete m l = true -> (5 <= marked_count m)%nat.
Proof.
  intros Hg Hl Hc.
  apply grid5_explicit in Hg as (?&?&?&?&?&?&?&?&?&?&?&?&?&?&?&?&?&?&?&?&?&?&?&?&?&->).
  unfold all_lines in Hl.
  repeat (apply elem_of_cons in Hl as [->|Hl]); try (by apply elem_of_nil in Hl);
    vm_compute in Hc;
    repeat match type of Hc with
    | (if ?b then _ else _) = true => destruct b; [|discriminate Hc]
    end;
    unfold marked_count; simpl; lia.
Qed.

Lemma toggle_count (self b : BingoBoard.t) (row col : Z) (o : outcome unit) :
  grid5 (BingoBoard.marked self) ->
  BingoBoard.toggle_mark row col self = (b, o) ->
  (marked_count (BingoBoard.marked b) <= S (marked_count (BingoBoard.marked self)))%nat.
Proof.
  intros Hm Htm.
  destruct (toggle_mark_cases self row col Hm)
    as [[_ Heq]|[[_ Heq]|(kr & kc & r & v & _ & Hkr & Hkc & Hr & Hv & Heq)]];
    rewrite Heq in Htm; injection Htm as <- <-; [lia|lia|].
  apply norm_index_lt in Hkr. apply norm_index_lt in Hkc. simpl.
  assert (kr = 0 \/ kr = 1 \/ kr = 2 \/ kr = 3 \/ kr = 4)%nat as Hkr' by lia.
  assert (kc = 0 \/ kc = 1 \/ kc = 2 \/ kc = 3 \/ kc = 4)%nat as Hkc' by lia.
  clear Hkr Hkc.
  apply grid5_explicit in Hm as (?&?&?&?&?&?&?&?&?&?&?&?&?&?&?&?&?&?&?&?&?&?&?&?&?&Hm).
  rewrite Hm in *. clear Hm.
  destruct Hkr' as [->|[->|[->|[->| ->]]]]; simpl in Hr; injection Hr as <-;
    destruct Hkc' as [->|[->|[->|[->| ->]]]]; simpl in Hv; injection Hv as <-;
    unfold marked_count; simpl;
    repeat match goal with
    | |- context [negb ?x] => destruct x; simpl
    end; lia.
Qed.

Lemma check_bingo_count (self : BingoBoard.t) (l : BingoBoard.line)
    (ls : list BingoBoard.line) :
  valid_board self ->
  BingoBoard.check_bingo self = Returns (l :: ls) ->
  (5 <= marked_count (BingoBoard.marked self))%nat.
Proof.
  intros [_ Hm] Hcb. rewrite (check_bingo_filter self Hm) in Hcb.
  injection Hcb as Hcb.
  assert (l ∈ filter (fun l => complete (BingoBoard.marked self) l) all_lines) as Hl.
  { rewrite Hcb. apply elem_of_cons. by left. }
  apply list_elem_of_filter in Hl as [Hc Hl].
  apply (complete_needs_five _ l); [done|done|]. by apply Is_true_true.
Qed.

(** X3. On a validly constructed board, when [check_bingo] returns a
    non-empty list at least 5 of the 25 cells are marked. *)
Theorem bingo_needs_five_marks (self : BingoBoard.t) (l : BingoBoard.line)
    (ls : list BingoBoard.line) :
  valid_board self ->
  BingoBoard.check_bingo self = Returns (l :: ls) ->
  (5 <= marked_count (BingoBoard.marked self))%nat.
Proof.
  intros Hv Hcb.
  pose proof (check_bingo_count self l ls Hv Hcb) as Hcount. exact Hcount.
Qed.

Lemma bingo_needs_five_marks_witness :
  valid_board (BingoUI.board (sample_after 4))
  /\ BingoBoard.check_bingo (BingoUI.board (sample_after 4))
     = Returns [("diag", 0)]%string
  /\ (5 <= marked_count (BingoBoard.marked (BingoUI.board (sample_after 4))))%nat.
Proof.
  assert (valid_board (BingoUI.board (sample_after 4))) as Hv by (split; compute_grid5).
  assert (BingoBoard.check_bingo (BingoUI.board (sample_after 4))
          = Returns [("diag", 0)]%string) as Hcb by (vm_compute; reflexivity).
  split; [exact Hv|]. split; [exact Hcb|].
  exact (bingo_needs_five_marks (BingoUI.board (sample_after 4)) _ _ Hv Hcb).
Defined.

Lemma handle_count (s : BingoUI.t) (c : BingoUI.click) :
  session_inv s ->
  (marked_count (BingoBoard.marked (BingoUI.board (fst (BingoUI.handle c s))))
   <= S (marked_count (BingoBoard.marked (BingoUI.board s))))%nat.
Proof.
  intros ([_ Hm] & Ht & _). destruct c as [row col|]; simpl.
  - rewrite on_tile_click_eq by done.
    destruct (BingoBoard.toggle_mark row col (BingoUI.board s)) as [b [[]|e]] eqn:Htm;
      [|simpl; lia].
    cbv zeta. simpl. rewrite checked_board.
    replace (BingoUI.board (redisplay (BingoUI.set_board b s))) with b by (by destruct s).
    by eapply toggle_count.
  - rewrite dismiss_bingo_eq. simpl.
    destruct (BingoUI.continue_button_enabled s); simpl; lia.
Qed.

Lemma no_win_while_few_marks (cs : list BingoUI.click) (s : BingoUI.t) :
  session_inv s -> BingoUI.bingo_active s = false ->
  (marked_count (BingoBoard.marked (BingoUI.board s)) + length cs < 5)%nat ->
  BingoUI.winning_lines (BingoUI.run cs s) = []
  /\ BingoUI.bingo_active (BingoUI.run cs s) = false
  /\ BingoUI.celebrations (BingoUI.run cs s) = BingoUI.celebrations s.
Proof.
  revert s. induction cs as [|c cs IH]; intros s Hinv Hact Hcount.
  { simpl. destruct Hinv as (_ & _ & _ & Hidle). auto. }
  cbn [BingoUI.run]. simpl in Hcount.
  pose proof (handle_count s c Hinv) as Hc.
  destruct (handle_effect s c Hinv) as (Hinv' & _ & Hidle). specialize (Hidle Hact).
  destruct (BingoUI.winning_lines (fst (BingoUI.handle c s))) as [|l ls] eqn:Hwl.
  - simpl in Hidle. destruct Hidle as [Ha Hcel].
    destruct (IH _ Hinv' Ha) as (H1 & H2 & H3); [lia|].
    split; [done|]. split; [done|]. congruence.
  - exfalso. destruct Hinv' as (Hv' & _ & Hcb & _). rewrite Hwl in Hcb.
    pose proof (check_bingo_count _ l ls Hv' Hcb). lia.
Qed.

(** X4. From a fresh session, fewer than 4 clicks (on tiles with any
    coordinates, or on the continue button) never produce a win: the winning
    lines are still empty, the phase is still [Idle] and no celebration has
    been launched. *)
Theorem no_bingo_before_four_clicks (s0 : BingoUI.t) (cs : list BingoUI.click) :
  fresh_session s0 -> (length cs < 4)%nat ->
  BingoUI.winning_lines (BingoUI.run cs s0) = []
  /\ BingoUI.session_phase (BingoUI.run cs s0) = BingoUI.Idle
  /\ BingoUI.celebrations (BingoUI.run cs s0) = BingoUI.celebrations s0.
Proof.
  intros Hf Hlen.
  destruct (no_win_while_few_marks cs s0) as (H1 & H2 & H3).
  - by apply fresh_session_inv.
  - by destruct Hf as (_ & _ & _ & Hact & _).
  - destruct Hf as (_ & -> & _). vm_compute marked_count. lia.
  - split; [done|]. split; [|done]. unfold BingoUI.session_phase. by rewrite H2.
Qed.


Lemma no_bingo_before_four_clicks_witness :
  fresh_session sample_session
  /\ (length (take 3 diagonal_clicks) < 4)%nat
  /\ BingoUI.winning_lines (BingoUI.run (take 3 diagonal_clicks) sample_session) = []
  /\ BingoUI.session_phase (BingoUI.run (take 3 diagonal_clicks) sample_session)
     = BingoUI.Idle
  /\ BingoUI.celebrations (BingoUI.run (take 3 diagonal_clicks) sample_session)
     = BingoUI.celebrations sample_session.
Proof.
  assert (fresh_session sample_session) as Hf by compute_fresh_session.
  assert (length (take 3 diagonal_clicks) < 4)%nat as Hlen by (vm_compute; lia).
  split; [exact Hf|]. split; [exact Hlen|].
  exact (no_bingo_before_four_clicks sample_session (take 3 diagonal_clicks) Hf Hlen).
Defined.

(** ** The board as text *)

Lemma split_no_sep (sep : Ascii.ascii) (x : string) :
  contains sep x = false -> split sep x = [x].
Proof.
  induction x as [|c x IH]; simpl; [done|].
  intros H. apply orb_false_iff in H as [Hc Hx]. rewrite Hc, (IH Hx). done.
Qed.

Lemma split_app_sep (sep : Ascii.ascii) (x rest : string) :
  contains sep x = false ->
  split sep (x +:+ String sep rest) = x :: split sep rest.
Proof.
  induction x as [|c x IH]; simpl.
  - intros _. by rewrite Ascii.eqb_refl.
  - intros H. apply orb_false_iff in H as [Hc Hx]. rewrite Hc, (IH Hx). done.
Qed.

Lemma split_join (sep : Ascii.ascii) (l : list string) :
  l <> [] -> Forall (fun x => contains sep x = false) l ->
  split sep (join (String sep "") l) = l.
Proof.
  induction l as [|x l IH]; [done|]. intros _ Hall.
  apply Forall_cons_1 in Hall as [Hx Hl].
  destruct l as [|y l]; [by apply split_no_sep|].
  change (join (String sep "") (x :: y :: l))
    with (x +:+ String sep (join (String sep "") (y :: l))).
  rewrite split_app_sep by done. f_equal. by apply IH.
Qed.

Lemma contains_app (sep : Ascii.ascii) (x y : string) :
  contains sep (x +:+ y) = contains sep x || contains sep y.
Proof. induction x as [|c x IH]; simpl; [done|]. by rewrite IH, orb_assoc. Qed.

Lemma contains_join (sep c : Ascii.ascii) (l : list string) :
  Ascii.eqb c sep = false ->
  Forall (fun x => contains sep x = false) l ->
  contains sep (join (String c "") l) = false.
Proof.
  intros Hc. induction l as [|x l IH]; [done|]. intros Hall.
  apply Forall_cons_1 in Hall as [Hx Hl].
  destruct l as [|y l]; [done|].
  change (join (String c "") (x :: y :: l))
    with (x +:+ String c (join (String c "") (y :: l))).
  rewrite contains_app. simpl. rewrite Hx, Hc. simpl. by apply IH.
Qed.

Lemma foldl_snoc_fmap {A B} (f : A -> B) (l : list A) (acc : list B) :
  foldl (fun acc x => acc ++ [f x]) acc l = acc ++ (f <$> l).
Proof.
  revert acc. induction l as [|x l IH]; intros acc; simpl.
  - by rewrite app_nil_r.
  - rewrite IH. by rewrite <- app_assoc.
Qed.

(** X17. When the board has at least one row, no row is empty and no
    phrase contains a tab or a newline character, the text returned by
    [get_board_text] determines the phrase grid: splitting it at the newlines
    and each line at the tabs gives back [self.board]. *)
Theorem get_board_text_round_trip (self : BingoBoard.t) :
  BingoBoard.board self <> [] ->
  Forall (fun row => row <> []
            /\ Forall (fun p => contains tab p = false /\ contains newline p = false) row)
         (BingoBoard.board self) ->
  (split tab <$> split newline (BingoBoard.get_board_text self)) = BingoBoard.board self.
Proof.
  intros Hne Hall. unfold BingoBoard.get_board_text.
  rewrite foldl_snoc_fmap, app_nil_l.
  rewrite split_join.
  - rewrite <- list_fmap_compose. rewrite <- (list_fmap_id (BingoBoard.board self)) at 2.
    apply Forall_fmap_ext_1. eapply Forall_impl; [exact Hall|].
    intros row [Hrow Hp]. simpl. apply split_join; [done|].
    eapply Forall_impl; [exact Hp|]. by intros p [? _].
  - by destruct (BingoBoard.board self).
  - apply Forall_fmap. eapply Forall_impl; [exact Hall|].
    intros row [_ Hp]. simpl. apply contains_join; [done|].
    eapply Forall_impl; [exact Hp|]. by intros p [_ ?].
Qed.

Lemma get_board_text_round_trip_witness :
  BingoBoard.board sample_board <> []
  /\ Forall (fun row => row <> []
               /\ Forall (fun p => contains tab p = false /\ contains newline p = false) row)
       (BingoBoard.board sample_board)
  /\ (split tab <$> split newline (BingoBoard.get_board_text sample_board))
     = BingoBoard.board sample_board.
Proof.
  assert (BingoBoard.board sample_board <> []) as Hne by (vm_compute; congruence).
  assert (Forall (fun row => row <> []
            /\ Forall (fun p => contains tab p = false /\ contains newline p = false) row)
            (BingoBoard.board sample_board)) as Hall
    by (apply (bool_decide_unpack _); vm_compute; exact I).
  split; [exact Hne|]. split; [exact Hall|].
  exact (get_board_text_round_trip sample_board Hne Hall).
Defined.

(** ** Labels *)

(** X18. When the pool holds at least 24 distinct phrases and none of them
    is ["FREE SPACE"], [generate_board] returns, for every sequence of draws,
    a board whose 25 labels are pairwise distinct, and the label
    ["FREE SPACE"] stands at the center and nowhere else. *)
Theorem board_labels_distinct (rnd : nat -> nat) (self : BingoBoard.t) :
  NoDup (BingoBoard.buzzwords self) ->
  "FREE SPACE"%string ∉ BingoBoard.buzzwords self ->
  (24 <= length (BingoBoard.buzzwords self))%nat ->
  exists b,
    BingoBoard.generate_board rnd self = (b, Returns tt)
    /\ NoDup (concat (BingoBoard.board b))
    /\ forall r c, 0 <= r < 5 -> 0 <= c < 5 ->
         ((BingoBoard.board b !! Z.to_nat r ≫= fun row => row !! Z.to_nat c)
          = Some "FREE SPACE"%string
          <-> (r, c) = BingoBoard.free_space_pos).
Proof.
  intros Hnd Hfree Hlen. eexists. split; [by apply generate_board_long|].
  pose proof (sample_loop_submseteq rnd 24 0 (BingoBoard.buzzwords self)) as Hsub.
  pose proof (sample_loop_length rnd 24 0 _ Hlen) as Hsel.
  revert Hsub Hsel. generalize (sample_loop rnd 0 (BingoBoard.buzzwords self) 24).
  intros sel Hsub Hsel. cbn [BingoBoard.board].
  assert ("FREE SPACE"%string ∉ sel) as Hfs.
  { intros Hin. apply Hfree. by eapply elem_of_submseteq. }
  split.
  - rewrite layout_concat by done.
    rewrite <- Permutation_middle. apply NoDup_cons. split.
    + by rewrite take_drop.
    + rewrite take_drop. by eapply submseteq_NoDup_l.
  - assert (Forall (fun x => x <> "FREE SPACE"%string) sel) as HF.
    { apply Forall_forall. intros x Hx ->. done. }
    destruct (list_24 sel Hsel)
      as (a0 & a1 & a2 & a3 & a4 & a5 & a6 & a7 & a8 & a9 & a10 & a11 & a12
          & a13 & a14 & a15 & a16 & a17 & a18 & a19 & a20 & a21 & a22 & a23 & ->).
    rewrite !Forall_cons in HF.
    intros r c Hr Hc.
    assert (r = 0 \/ r = 1 \/ r = 2 \/ r = 3 \/ r = 4) as Hr' by lia.
    assert (c = 0 \/ c = 1 \/ c = 2 \/ c = 3 \/ c = 4) as Hc' by lia.
    clear Hr Hc Hsub Hfs Hsel.
    destruct Hr' as [->|[->|[->|[->| ->]]]];
      destruct Hc' as [->|[->|[->|[->| ->]]]];
      vm_compute; (split; [intros [=]; tauto || done | intros [=]; done || tauto]).
Qed.

Lemma board_labels_distinct_witness :
  NoDup main_buzzwords
  /\ ("FREE SPACE"%string ∉ main_buzzwords)
  /\ (24 <= length main_buzzwords)%nat
  /\ exists b,
       BingoBoard.generate_board sample_rnd (BingoBoard.mk main_buzzwords [] [])
       = (b, Returns tt)
       /\ NoDup (concat (BingoBoard.board b))
       /\ forall r c, 0 <= r < 5 -> 0 <= c < 5 ->
            ((BingoBoard.board b !! Z.to_nat r ≫= fun row => row !! Z.to_nat c)
             = Some "FREE SPACE"%string
             <-> (r, c) = BingoBoard.free_space_pos).
Proof.
  assert (NoDup main_buzzwords) as Hnd
    by (apply (bool_decide_unpack (NoDup main_buzzwords)); vm_compute; exact I).
  assert ("FREE SPACE"%string ∉ main_buzzwords) as Hfree
    by (apply (bool_decide_unpack _); vm_compute; exact I).
  assert (24 <= length main_buzzwords)%nat as Hlen by (vm_compute; lia).
  split; [exact Hnd|]. split; [exact Hfree|]. split; [exact Hlen|].
  exact (board_labels_distinct sample_rnd (BingoBoard.mk main_buzzwords [] [])
           Hnd Hfree Hlen).
Defined.

(** ** The tile widget *)

Lemma update_appearance_consistent (w : BingoTile.t) :
  tile_consistent (BingoTile.update_appearance w).
Proof.
  destruct w as [txt m wn f fill st]. unfold tile_consistent, BingoTile.update_appearance.
  destruct wn, f, m; simpl; repeat split; try done; try (intros [=]); try tauto;
    try (by left); try (by right); try (intros (? & ? & ?); done).
Qed.

Lemma update_appearance_flags (w : BingoTile.t) :
  BingoTile.text_content (BingoTile.update_appearance w) = BingoTile.text_content w
  /\ BingoTile.is_marked (BingoTile.update_appearance w) = BingoTile.is_marked w
  /\ BingoTile.is_winning (BingoTile.update_appearance w) = BingoTile.is_winning w
  /\ BingoTile.is_free_space (BingoTile.update_appearance w) = BingoTile.is_free_space w.
Proof. destruct w as [txt [] [] [] fill st]; done. Qed.

Lemma tile_appearance_consistent (text : string) (calls : list BingoTile.call) :
  let w := foldl BingoTile.apply_call (BingoTile.init text) calls in
  BingoTile.text_content w = text
  /\ BingoTile.is_free_space w = String.eqb text "FREE SPACE"
  /\ tile_consistent w.
Proof.
  cbv zeta.
  assert (BingoTile.text_content (BingoTile.init text) = text
          /\ BingoTile.is_free_space (BingoTile.init text) = String.eqb text "FREE SPACE"
          /\ tile_consistent (BingoTile.init text)) as Hinit.
  { unfold BingoTile.init. simpl. destruct (String.eqb text "FREE SPACE") eqn:Hfs.
    - unfold BingoTile.set_marked.
      split; [apply update_appearance_flags|].
      split; [apply update_appearance_flags|]. apply update_appearance_consistent.
    - split; [done|]. split; [done|]. unfold tile_consistent. simpl.
      repeat split; try done; try (by left); intros [=]. }
  revert Hinit. generalize (BingoTile.init text). intros w0.
  revert w0. induction calls as [|c calls IH]; intros w0 Hw0; [done|].
  simpl. apply IH. destruct Hw0 as (Ht & Hf & _).
  destruct c; unfold BingoTile.apply_call, BingoTile.set_marked, BingoTile.set_winning;
    (split; [|split; [|apply update_appearance_consistent]]);
    match goal with
    | |- context [BingoTile.update_appearance ?w] =>
        destruct (update_appearance_flags w) as (Ht' & _ & _ & Hf')
    end; rewrite ?Ht', ?Hf'; done.
Qed.

(** X19. A tile built by the constructor and then sent any sequence of
    [set_marked] and [set_winning] calls keeps its text and its
    [is_free_space] flag; its check mark is hidden exactly when it is neither
    winning nor the free space nor marked; it is drawn in the winning colour
    exactly when it is winning; and the free-space tile always shows its
    check mark and is never drawn in the normal or the marked colour,
    whatever marked flag it is given. *)
Theorem tile_appearance_invariant (text : string) (calls : list BingoTile.call) :
  let w := foldl BingoTile.apply_call (BingoTile.init text) calls in
  BingoTile.text_content w = text
  /\ BingoTile.is_free_space w = String.eqb text "FREE SPACE"
  /\ (BingoTile.check_state w = "hidden"%string
      <-> BingoTile.is_winning w = false /\ BingoTile.is_free_space w = false
          /\ BingoTile.is_marked w = false)
  /\ (BingoTile.check_state w = "hidden"%string
      \/ BingoTile.check_state w = "normal"%string)
  /\ (BingoTile.is_free_space w = true ->
      BingoTile.check_state w = "normal"%string
      /\ (BingoTile.rect_fill w = BingoTile.winning_color
          \/ BingoTile.rect_fill w = BingoTile.free_space_color))
  /\ (BingoTile.rect_fill w = BingoTile.winning_color <-> BingoTile.is_winning w = true).
Proof.
  cbv zeta. destruct (tile_appearance_consistent text calls) as (Ht & Hf & Hc).
  split; [exact Ht|]. split; [exact Hf|]. exact Hc.
Qed.

Lemma tile_appearance_invariant_witness :
  let w := foldl BingoTile.apply_call (BingoTile.init "FREE SPACE")
             [BingoTile.SetMarked false; BingoTile.SetWinning false] in
  BingoTile.is_free_space w = true
  /\ BingoTile.is_marked w = false
  /\ BingoTile.check_state w = "normal"%string
  /\ (BingoTile.rect_fill w = BingoTile.winning_color
      \/ BingoTile.rect_fill w = BingoTile.free_space_color).
Proof.
  cbv zeta.
  assert (BingoTile.is_free_space
            (foldl BingoTile.apply_call (BingoTile.init "FREE SPACE")
               [BingoTile.SetMarked false; BingoTile.SetWinning false]) = true) as Hfs
    by (vm_compute; reflexivity).
  split; [exact Hfs|]. split; [vm_compute; reflexivity|].
  exact (proj1 (proj2 (proj2 (proj2 (proj2
           (tile_appearance_invariant "FREE SPACE"
              [BingoTile.SetMarked false; BingoTile.SetWinning false]))))) Hfs).
Defined.

